(** * SementicSearchDB: entry validation, storage and ranking

    A shallow embedding of the service layer
    ([services/semanticSearchService.js]), of the request validation
    ([middleware/validation.js]), of the routes on entries
    ([routes/semanticSearch.js]) and of the error handler
    ([middleware/errorHandler.js]).

    Conventions.
    - A JavaScript number used by the ranking code is a real number or [NaN];
      arithmetic is exact (no rounding, no overflow to an infinity). Two
      scores that binary64 rounds to the same number can differ here, so
      scores are compared with [<=] only, which rounding preserves.
    - [Array.prototype.sort] is modelled for a comparator that answers with
      numbers; the order that an engine gives when a comparison is [NaN] is
      not modelled, and the order of a result is stated for numeric scores.
    - A JSON number of a request body is a rational, a string is the
      sequence of the bytes of its UTF-8 text (its length is counted in
      UTF-16 code units, as [String.prototype.length] does), an object is a
      finite map from its keys.
    - The collection answers every call: a call that the database fails
      (answered with status 500 by the error handler) is outside the
      model, and nothing is stated about such an answer.
    - The ranking code reads a hit of the vector query at the types that
      validation leaves in a stored entry: [$similarity] is a number;
      [created_at] is a string and the knobs of [search_metadata] are
      numbers, each of which may be absent.
    - The wall clock ([new Date()]), the date parser ([new Date(string)]), the
      identifier source ([uuidv4()]) and the vector query of the collection
      are inputs of the functions that use them. *)

From stdpp Require Import gmap strings list fin_maps.
From Stdlib Require Import QArith Qround Reals Lra Lia Permutation Sorted DecimalString.

Set Warnings "-register-all".
Close Scope Q_scope.

(* ===================================================================== *)
(** * Part I: definitions                                                 *)
(* ===================================================================== *)

(** ** JavaScript numbers of the ranking code *)

Module JS.

Inductive num : Type :=
| Num (r : R)
| NaN.

Definition add (a b : num) : num :=
  match a, b with
  | Num x, Num y => Num (x + y)
  | _, _ => NaN
  end.

Definition sub (a b : num) : num :=
  match a, b with
  | Num x, Num y => Num (x - y)
  | _, _ => NaN
  end.

Definition mul (a b : num) : num :=
  match a, b with
  | Num x, Num y => Num (x * y)
  | _, _ => NaN
  end.

(** [a / b]. The source divides by the non-zero constant
    [1000 * 60 * 60 * 24] only; a zero divisor (an infinity or [NaN] in
    JavaScript) is outside the number model and reported as [NaN]. *)
Definition div (a b : num) : num :=
  match a, b with
  | Num x, Num y => if Req_dec_T y 0 then NaN else Num (x / y)
  | _, _ => NaN
  end.

(** Unary minus. *)
Definition neg (a : num) : num :=
  match a with
  | Num x => Num (- x)
  | NaN => NaN
  end.

(** [Math.exp]. *)
Definition Math_exp (a : num) : num :=
  match a with
  | Num x => Num (exp x)
  | NaN => NaN
  end.

(** [Math.min] of two arguments: [NaN] as soon as one of them is. *)
Definition Math_min (a b : num) : num :=
  match a, b with
  | Num x, Num y => Num (Rmin x y)
  | _, _ => NaN
  end.

(** [ToBoolean] on a number: [0] and [NaN] are falsy. *)
Definition truthy (a : num) : bool :=
  match a with
  | Num x => if Req_dec_T x 0 then false else true
  | NaN => false
  end.

(** [a !== b] on numbers: [NaN] differs from everything. *)
Definition strict_ne (a b : num) : bool :=
  match a, b with
  | Num x, Num y => if Req_dec_T x y then false else true
  | _, _ => true
  end.

(** [a >= b]: false as soon as one side is [NaN]. *)
Definition ge (a b : num) : bool :=
  match a, b with
  | Num x, Num y => if Rle_dec y x then true else false
  | _, _ => false
  end.

(** [a < 0], the test a sort makes on the result of its comparator
    (a [NaN] result counts as [+0]). *)
Definition negative (a : num) : bool :=
  match a with
  | Num x => if Rlt_dec x 0 then true else false
  | NaN => false
  end.

(** [o || d] where [o] is a possibly absent numeric property. *)
Definition or_default (o : option num) (d : num) : num :=
  match o with
  | Some n => if truthy n then n else d
  | None => d
  end.

(** [a >= b] as a proposition. *)
Definition at_least (a b : num) : Prop :=
  match a, b with
  | Num x, Num y => (y <= x)%R
  | _, _ => False
  end.

(** [a > b] as a proposition. *)
Definition gt (a b : num) : Prop :=
  match a, b with
  | Num x, Num y => (x > y)%R
  | _, _ => False
  end.

(** Equality of two numbers can be decided (classically, for reals). *)
Definition num_eq_dec (a b : num) : {a = b} + {a <> b}.
Proof.
  destruct a as [x|], b as [y|].
  - destruct (Req_dec_T x y) as [->|H]; [by left | right; congruence].
  - by right.
  - by right.
  - by left.
Defined.

#[global] Instance num_eq_decision : EqDecision num := num_eq_dec.

(** [Array.prototype.sort] with a comparator that answers with numbers:
    the sort is stable, and [x] is placed before [y] exactly when the
    comparator is negative on [(x, y)]. Insertion from the right gives that
    order. *)
Section Sort.
Context {A : Type} (comparefn : A -> A -> num).

Fixpoint sort_insert (x : A) (l : list A) : list A :=
  match l with
  | [] => [x]
  | y :: l' =>
      if negative (comparefn y x) then y :: sort_insert x l'
      else x :: y :: l'
  end.

Definition sort (l : list A) : list A := foldr sort_insert [] l.
End Sort.

End JS.

(** ** JSON values of request bodies and stored documents *)

Inductive value : Type :=
| VNull
| VBool (b : bool)
| VNum (q : Q)
| VStr (s : string)
| VArr (l : list value)
| VObj (o : gmap string value).

(** ** Ranking engine: [searchSimilar] and [applyBoosting] *)

Module Ranking.
Import JS.

(** [search_metadata] of a stored entry; a knob may be absent. *)
Record search_metadata : Type := {
  boost_factor : option num;
  recency_weight : option num;
  user_preference_alignment : option num
}.

(** The empty object [{}]. *)
Definition no_metadata : search_metadata :=
  {| boost_factor := None; recency_weight := None;
     user_preference_alignment := None |}.

(** A hit of the vector query. [similarity] is [$similarity],
    [original_similarity] is [$original_similarity]; [fields] holds the
    properties the ranking code does not read. *)
Record result : Type := {
  similarity : num;
  original_similarity : option num;
  created_at : option string;
  metadata : option search_metadata;
  fields : gmap string value
}.

Record options : Type := {
  boost_recent : bool;
  boost_preferences : bool
}.

(** The clock of one call: [new Date()] in milliseconds, and
    [new Date(s)] for a string [s] ([NaN] for an invalid date). *)
Record clock : Type := {
  now : R;
  Date_parse : string -> num
}.

(** [new Date(result.created_at)]: an absent property is [undefined],
    which gives an invalid date. *)
Definition createdAt (c : clock) (r : result) : num :=
  match created_at r with
  | Some s => Date_parse c s
  | None => NaN
  end.

(** A knob as validation leaves it: absent, or a number. *)
Definition numeric_knob (k : option num) : Prop :=
  match k with
  | Some NaN => False
  | _ => True
  end.

(** [result.search_metadata || {}]. *)
Definition metadata_or_empty (r : result) : search_metadata :=
  match metadata r with
  | Some m => m
  | None => no_metadata
  end.

Local Open Scope R_scope.

(** [(now - createdAt) / (1000 * 60 * 60 * 24)]. *)
Definition daysSinceCreated (c : clock) (r : result) : num :=
  div (sub (Num (now c)) (createdAt c r)) (Num (1000 * 60 * 60 * 24)).

(** [Math.exp(-daysSinceCreated * 0.1) * (metadata.recency_weight || 0.5)]. *)
Definition recencyBoost (c : clock) (r : result) : num :=
  mul (Math_exp (mul (neg (daysSinceCreated c r)) (Num 0.1)))
      (or_default (recency_weight (metadata_or_empty r)) (Num 0.5)).

(** [(metadata.user_preference_alignment || 0.5) * 0.1]. *)
Definition preferenceBoost (r : result) : num :=
  mul (or_default (user_preference_alignment (metadata_or_empty r)) (Num 0.5))
      (Num 0.1).

(** The three updates of [adjustedSimilarity], in source order; the last
    one is
    [if (metadata.boost_factor && metadata.boost_factor !== 1.0)
       adjustedSimilarity *= metadata.boost_factor]. *)
Definition recency_step (c : clock) (o : options) (r : result)
    (adjusted : num) : num :=
  if boost_recent o then add adjusted (mul (recencyBoost c r) (Num 0.1))
  else adjusted.

Definition preference_step (o : options) (r : result) (adjusted : num) : num :=
  if boost_preferences o then add adjusted (preferenceBoost r)
  else adjusted.

Definition factor_step (r : result) (adjusted : num) : num :=
  match boost_factor (metadata_or_empty r) with
  | Some f => if truthy f && strict_ne f (Num 1) then mul adjusted f else adjusted
  | None => adjusted
  end.

(** The value of [adjustedSimilarity] when the callback returns. *)
Definition adjustedSimilarity (c : clock) (o : options) (r : result) : num :=
  factor_step r (preference_step o r (recency_step c o r (similarity r))).

(** The body of the [map] callback:
    [{...result, $similarity: Math.min(adjustedSimilarity, 1.0),
      $original_similarity: result.$similarity}]. *)
Definition boost (c : clock) (o : options) (r : result) : result :=
  {| similarity := Math_min (adjustedSimilarity c o r) (Num 1);
     original_similarity := Some (similarity r);
     created_at := created_at r;
     metadata := metadata r;
     fields := fields r |}.

(** [(a, b) => b.$similarity - a.$similarity]. *)
Definition by_similarity_desc (a b : result) : num :=
  sub (similarity b) (similarity a).

Definition applyBoosting (c : clock) (results : list result) (o : options)
  : list result :=
  sort by_similarity_desc (map (boost c o) results).

(** The request of [searchSimilar]; an absent property is [None]. *)
Record queryData : Type := {
  embedding : list num;
  user_id : option string;
  content_type : option (list string);
  tags : option (list string);
  limit : option nat;
  similarity_threshold : option num;
  q_boost_recent : option bool;
  q_boost_preferences : option bool
}.

(** The filter handed to the collection. *)
Record query_filter : Type := {
  f_user_id : option string;
  f_content_type : option (list string);
  f_tags : option (list string)
}.

Definition nonempty_string (o : option string) : option string :=
  match o with
  | Some s => if decide (s = "") then None else Some s
  | None => None
  end.

Definition nonempty_list (o : option (list string)) : option (list string) :=
  match o with
  | Some (x :: l) => Some (x :: l)
  | _ => None
  end.

Definition build_filter (q : queryData) : query_filter :=
  {| f_user_id := nonempty_string (user_id q);
     f_content_type := nonempty_list (content_type q);
     f_tags := nonempty_list (tags q) |}.

(** [data] of the answer of [searchSimilar]. *)
Record search_data : Type := {
  results : list result;
  total : nat;
  applied_threshold : num;
  boost_applied : bool
}.

(** [results.filter(result => result.$similarity >= similarity_threshold)]. *)
Definition filteredResults (candidates : list result) (threshold : num)
  : list result :=
  filter (fun r => ge (similarity r) threshold = true) candidates.

(** Everything [searchSimilar] does once the collection has answered:
    the threshold cut, then the optional boosting pass. *)
Definition rank (c : clock) (candidates : list result) (threshold : num)
    (o : options) : search_data :=
  let processedResults :=
    if boost_recent o || boost_preferences o
    then applyBoosting c (filteredResults candidates threshold) o
    else filteredResults candidates threshold in
  {| results := processedResults;
     total := length processedResults;
     applied_threshold := threshold;
     boost_applied := boost_recent o || boost_preferences o |}.

(** [searchSimilar]: defaults of the destructuring, the filter, the
    vector query [find] of the collection, then [rank]. *)
Definition searchSimilar
    (find : query_filter -> list num -> nat -> list result)
    (c : clock) (q : queryData) : search_data :=
  let limit := default 10%nat (limit q) in
  let similarity_threshold := default (Num 0.7) (similarity_threshold q) in
  let o := {| boost_recent := default false (q_boost_recent q);
              boost_preferences := default false (q_boost_preferences q) |} in
  rank c (find (build_filter q) (embedding q) limit) similarity_threshold o.

(** A knob that is absent, or a number that is not negative (what
    [min(0)] leaves in a stored entry). *)
Definition nonneg_knob (k : option num) : Prop :=
  match k with
  | Some (Num x) => (0 <= x)%R
  | Some NaN => False
  | None => True
  end.

End Ranking.

(** ** The recency contribution as the specification words it

    "let age_days = (now - entry.created_at) in days (clamped to >= 0 if
    clocks disagree); compute recency_boost = exp(-0.1 * age_days) *
    recency_weight (falling back to 0.5 if the entry carries no explicit
    recency_weight); add recency_boost * 0.1 to adjusted". *)

Module Claimed.

Definition recency_contribution (age_days : R) (recency_weight : option R) : R :=
  (exp (- 0.1 * Rmax 0 age_days) * default 0.5 recency_weight * 0.1)%R.

(** "[created_at] <= [updated_at] always holds after any mutation": both
    timestamps of the stored document are dates, in that order. *)
Definition created_before_updated (parse : string -> JS.num)
    (doc : gmap string value) : Prop :=
  match doc !! "created_at", doc !! "updated_at" with
  | Some (VStr c), Some (VStr u) =>
      match parse c, parse u with
      | JS.Num tc, JS.Num tu => (tc <= tu)%R
      | _, _ => False
      end
  | _, _ => False
  end.

End Claimed.

(** ** Schema validation: the part of the Joi library the schemas use *)

Module Schema.

(** What the validation library brings and the schemas do not spell out:
    the pattern behind [.uuid()]; the number that a string converts to when
    it matches the number pattern (numeric strings are converted before a
    number is checked); and whether the digits of such a string are those
    of the number it converts to (the conversion refuses the string as an
    unsafe number otherwise). *)
Record lib : Type := {
  guid : string -> bool;
  number_rx : string -> option Q;
  precise : string -> bool
}.

Inductive segment : Type :=
| Key (k : string)
| Index (i : nat).

Inductive error_type : Type :=
| any_required
| string_base
| string_empty
| string_max (limit : Z)
| string_guid
| number_base
| number_unsafe
| number_integer
| number_min (limit : Z)
| number_max (limit : Z)
| boolean_base
| array_base
| array_length (limit : Z)
| array_max (limit : Z)
| array_includesRequiredUnknowns (unknownMisses : Z)
| object_base.

(** One entry of [error.details]. *)
Record detail : Type := {
  path : list segment;
  code : error_type;
  message : string;
  context_value : option value
}.

Inductive presence_t : Type := optional_ | required_.

Record flags : Type := {
  presence : presence_t;
  default_value : option value;
  messages : list (string * string)
}.

Inductive string_rule : Type := s_max (limit : Z) | s_guid.
Inductive number_rule : Type := n_integer | n_min (limit : Z) | n_max (limit : Z).
Inductive array_rule : Type := a_length (limit : Z) | a_max (limit : Z).

Inductive schema : Type :=
| JString (f : flags) (rules : list string_rule)
| JNumber (f : flags) (rules : list number_rule)
| JBoolean (f : flags)
| JArray (f : flags) (items : option schema) (rules : list array_rule)
| JObject (f : flags) (keys : list (string * schema)).

Definition flags_of (s : schema) : flags :=
  match s with
  | JString f _ | JNumber f _ | JBoolean f | JArray f _ _ | JObject f _ => f
  end.

(** *** Messages *)

Definition type_name (e : error_type) : string :=
  match e with
  | any_required => "any.required"
  | string_base => "string.base"
  | string_empty => "string.empty"
  | string_max _ => "string.max"
  | string_guid => "string.guid"
  | number_base => "number.base"
  | number_unsafe => "number.unsafe"
  | number_integer => "number.integer"
  | number_min _ => "number.min"
  | number_max _ => "number.max"
  | boolean_base => "boolean.base"
  | array_base => "array.base"
  | array_length _ => "array.length"
  | array_max _ => "array.max"
  | array_includesRequiredUnknowns _ => "array.includesRequiredUnknowns"
  | object_base => "object.base"
  end.

Definition decimal (z : Z) : string := NilZero.string_of_int (Z.to_int z).

(** The text of a default message after the label. *)
Definition template (e : error_type) : string :=
  match e with
  | any_required => " is required"
  | string_base => " must be a string"
  | string_empty => " is not allowed to be empty"
  | string_max limit =>
      " length must be less than or equal to " +:+ decimal limit
        +:+ " characters long"
  | string_guid => " must be a valid GUID"
  | number_base => " must be a number"
  | number_unsafe => " must be a safe number"
  | number_integer => " must be an integer"
  | number_min limit => " must be greater than or equal to " +:+ decimal limit
  | number_max limit => " must be less than or equal to " +:+ decimal limit
  | boolean_base => " must be a boolean"
  | array_base => " must be an array"
  | array_length limit => " must contain " +:+ decimal limit +:+ " items"
  | array_max limit =>
      " must contain less than or equal to " +:+ decimal limit +:+ " items"
  | array_includesRequiredUnknowns n =>
      " does not contain " +:+ decimal n +:+ " required value(s)"
  | object_base => " must be of type object"
  end.

Fixpoint label_tail (p : list segment) : string :=
  match p with
  | [] => ""
  | Key k :: p' => "." +:+ k +:+ label_tail p'
  | Index i :: p' => "[" +:+ decimal (Z.of_nat i) +:+ "]" +:+ label_tail p'
  end.

(** The label of a path: [search_metadata.boost_factor],
    [primary_embedding[5]]; [value] at the root. *)
Definition label (p : list segment) : string :=
  match p with
  | [] => "value"
  | Key k :: p' => k +:+ label_tail p'
  | Index i :: p' => "[" +:+ decimal (Z.of_nat i) +:+ "]" +:+ label_tail p'
  end.

Definition quote : string := String (Ascii.ascii_of_nat 34) EmptyString.

Fixpoint custom_message (ms : list (string * string)) (name : string)
  : option string :=
  match ms with
  | [] => None
  | (n, m) :: ms' => if String.eqb n name then Some m else custom_message ms' name
  end.

Definition render (f : flags) (p : list segment) (e : error_type) : string :=
  match custom_message (messages f) (type_name e) with
  | Some m => m
  | None => quote +:+ label p +:+ quote +:+ template e
  end.

Definition error (f : flags) (p : list segment) (e : error_type)
    (v : option value) : detail :=
  {| path := p; code := e; message := render f p e; context_value := v |}.

(** *** Checks of the base types *)

Definition MAX_SAFE_INTEGER : Z := 9007199254740991.

Definition unsafe (q : Q) : bool :=
  negb (Qle_bool q (inject_Z MAX_SAFE_INTEGER))
  || negb (Qle_bool (inject_Z (- MAX_SAFE_INTEGER)) q).

(** [Math.trunc(value) - value === 0]. *)
Definition is_integer (q : Q) : bool :=
  (Qnum q mod Zpos (Qden q) =? 0)%Z.

(** [s.length]: the UTF-16 code units of the text whose UTF-8 bytes are
    [s]. A byte that continues a character counts for nothing, the first
    byte of a character of four bytes for two (a surrogate pair), any other
    byte for one. *)
Definition code_units (a : Ascii.ascii) : Z :=
  let n := Ascii.nat_of_ascii a in
  if (128 <=? n)%nat && (n <? 192)%nat then 0%Z
  else if (240 <=? n)%nat then 2%Z
  else 1%Z.

Fixpoint utf16_length (s : string) : Z :=
  match s with
  | EmptyString => 0%Z
  | String a s' => (code_units a + utf16_length s')%Z
  end.

Definition string_check (L : lib) (f : flags) (p : list segment) (s : string)
    (r : string_rule) : list detail :=
  match r with
  | s_max limit =>
      if (utf16_length s <=? limit)%Z then []
      else [error f p (string_max limit) (Some (VStr s))]
  | s_guid =>
      if guid L s then [] else [error f p string_guid (Some (VStr s))]
  end.

Definition number_check (f : flags) (p : list segment) (q : Q)
    (r : number_rule) : list detail :=
  match r with
  | n_integer =>
      if is_integer q then [] else [error f p number_integer (Some (VNum q))]
  | n_min limit =>
      if Qle_bool (inject_Z limit) q then []
      else [error f p (number_min limit) (Some (VNum q))]
  | n_max limit =>
      if Qle_bool q (inject_Z limit) then []
      else [error f p (number_max limit) (Some (VNum q))]
  end.

Definition array_check (f : flags) (p : list segment) (l : list value)
    (r : array_rule) : list detail :=
  match r with
  | a_length limit =>
      if (Z.of_nat (length l) =? limit)%Z then []
      else [error f p (array_length limit) (Some (VArr l))]
  | a_max limit =>
      if (Z.of_nat (length l) <=? limit)%Z then []
      else [error f p (array_max limit) (Some (VArr l))]
  end.

Definition lower (a : Ascii.ascii) : Ascii.ascii :=
  let n := Ascii.nat_of_ascii a in
  if (65 <=? n)%nat && (n <=? 90)%nat then Ascii.ascii_of_nat (n + 32) else a.

Fixpoint toLowerCase (s : string) : string :=
  match s with
  | EmptyString => EmptyString
  | String a s' => String (lower a) (toLowerCase s')
  end.

(** Conversion of a string before a number or a boolean is checked. *)
Definition coerce_number (L : lib) (x : value) : value :=
  match x with
  | VStr s => match number_rx L s with Some q => VNum q | None => x end
  | _ => x
  end.

(** A numeric string that the conversion refuses. *)
Definition imprecise (L : lib) (x : value) : bool :=
  match x with
  | VStr s =>
      match number_rx L s with
      | Some _ => negb (precise L s)
      | None => false
      end
  | _ => false
  end.

Definition coerce_boolean (x : value) : value :=
  match x with
  | VStr s =>
      if String.eqb (toLowerCase s) "true" then VBool true
      else if String.eqb (toLowerCase s) "false" then VBool false
      else x
  | _ => x
  end.

(** *** The validator *)

(** The loop over the items of an array: every item is checked at its
    index, the violations are gathered, the items are replaced by their
    converted values, and the flag tells whether some item passed. *)
Fixpoint each_item
    (check : list segment -> option value -> list detail * option value)
    (p : list segment) (l : list value) (i : nat)
  : list detail * list value * bool :=
  match l with
  | [] => ([], [], false)
  | y :: l0 =>
      let '(e1, v1) := check (p ++ [Index i]) (Some y) in
      let '(e2, l2, m2) := each_item check p l0 (S i) in
      (e1 ++ e2, default y v1 :: l2, match e1 with [] => true | _ => m2 end)
  end.

(** The loop over the keys of an object schema: the value found under
    each key ([undefined] when there is none) is checked, and the result
    holds the known keys only. *)
Definition each_key
    (check : schema -> list segment -> option value -> list detail * option value)
    (o : gmap string value) (p : list segment)
  : list (string * schema) -> list detail * gmap string value :=
  fix each (ks : list (string * schema)) : list detail * gmap string value :=
    match ks with
    | [] => ([], ∅)
    | (k, child) :: ks' =>
        let '(e1, v1) := check child (p ++ [Key k]) (o !! k) in
        let '(e2, o2) := each ks' in
        (e1 ++ e2, match v1 with Some w => <[k:=w]> o2 | None => o2 end)
    end.

(** [validate_at L s p v] checks the value [v] found at path [p] ([None]
    for [undefined]) and returns every violation ([abortEarly: false]) with
    the converted value, unknown keys of objects removed
    ([stripUnknown: true]). A required item schema asks for one item at
    least that passes. *)
Fixpoint validate_at (L : lib) (s : schema) (p : list segment)
    (v : option value) {struct s} : list detail * option value :=
  match v with
  | None =>
      match presence (flags_of s) with
      | required_ => ([error (flags_of s) p any_required None], None)
      | optional_ => ([], default_value (flags_of s))
      end
  | Some x =>
      match s with
      | JString f rules =>
          match x with
          | VStr str =>
              if String.eqb str "" then ([error f p string_empty (Some x)], Some x)
              else (flat_map (string_check L f p str) rules, Some x)
          | _ => ([error f p string_base (Some x)], Some x)
          end
      | JNumber f rules =>
          if imprecise L x
          then ([error f p number_unsafe (Some x)], Some (coerce_number L x))
          else
            match coerce_number L x with
            | VNum q =>
                if unsafe q
                then ([error f p number_unsafe (Some (VNum q))], Some (VNum q))
                else (flat_map (number_check f p q) rules, Some (VNum q))
            | x' => ([error f p number_base (Some x')], Some x')
            end
      | JBoolean f =>
          match coerce_boolean x with
          | VBool b => ([], Some (VBool b))
          | x' => ([error f p boolean_base (Some x')], Some x')
          end
      | JArray f items rules =>
          match x with
          | VArr l =>
              let '(item_errors, l', missed) :=
                match items with
                | None => ([], l, false)
                | Some it =>
                    let '(es, l', matched) :=
                      each_item (validate_at L it) p l 0%nat in
                    (es, l',
                     match presence (flags_of it) with
                     | required_ => negb matched
                     | optional_ => false
                     end)
                end in
              (item_errors
                 ++ (if missed
                     then [error f p (array_includesRequiredUnknowns 1)
                             (Some (VArr l'))]
                     else [])
                 ++ flat_map (array_check f p l') rules,
               Some (VArr l'))
          | _ => ([error f p array_base (Some x)], Some x)
          end
      | JObject f keys =>
          match x with
          | VObj o =>
              let '(es, o') := each_key (validate_at L) o p keys in
              (es, Some (VObj o'))
          | _ => ([error f p object_base (Some x)], Some x)
          end
      end
  end.

(** [String.prototype.includes]. *)
Fixpoint includes (needle hay : string) : bool :=
  String.prefix needle hay
  || match hay with
     | EmptyString => false
     | String _ hay' => includes needle hay'
     end.

End Schema.

(** ** The fluent schema builders, for the combinations the schemas use *)

Module Joi.
Import Schema.

Definition no_flags : flags :=
  {| presence := optional_; default_value := None; messages := [] |}.

Definition required_flags : flags :=
  {| presence := required_; default_value := None; messages := [] |}.

Definition string_ : schema := JString no_flags [].
Definition number : schema := JNumber no_flags [].
Definition boolean : schema := JBoolean no_flags.
Definition array : schema := JArray no_flags None [].
Definition object (keys : list (string * schema)) : schema := JObject no_flags keys.

Definition with_flags (g : flags -> flags) (s : schema) : schema :=
  match s with
  | JString f r => JString (g f) r
  | JNumber f r => JNumber (g f) r
  | JBoolean f => JBoolean (g f)
  | JArray f it r => JArray (g f) it r
  | JObject f ks => JObject (g f) ks
  end.

Definition required : schema -> schema :=
  with_flags (fun f => {| presence := required_;
                          default_value := default_value f;
                          messages := Schema.messages f |}).

Definition optional : schema -> schema :=
  with_flags (fun f => {| presence := optional_;
                          default_value := default_value f;
                          messages := Schema.messages f |}).

Definition default (v : value) : schema -> schema :=
  with_flags (fun f => {| presence := presence f;
                          default_value := Some v;
                          messages := Schema.messages f |}).

Definition messages (ms : list (string * string)) : schema -> schema :=
  with_flags (fun f => {| presence := presence f;
                          default_value := default_value f;
                          messages := ms ++ Schema.messages f |}).

Definition uuid (s : schema) : schema :=
  match s with
  | JString f r => JString f (r ++ [s_guid])
  | _ => s
  end.

Definition integer (s : schema) : schema :=
  match s with
  | JNumber f r => JNumber f (r ++ [n_integer])
  | _ => s
  end.

Definition min (limit : Z) (s : schema) : schema :=
  match s with
  | JNumber f r => JNumber f (r ++ [n_min limit])
  | _ => s
  end.

Definition max (limit : Z) (s : schema) : schema :=
  match s with
  | JString f r => JString f (r ++ [s_max limit])
  | JNumber f r => JNumber f (r ++ [n_max limit])
  | JArray f it r => JArray f it (r ++ [a_max limit])
  | _ => s
  end.

Definition length (limit : Z) (s : schema) : schema :=
  match s with
  | JArray f it r => JArray f it (r ++ [a_length limit])
  | _ => s
  end.

Definition items (it : schema) (s : schema) : schema :=
  match s with
  | JArray f _ r => JArray f (Some it) r
  | _ => s
  end.

End Joi.

(** [x |> f] is the method call [x.f]. *)
Notation "x |> f" := (f x) (at level 40, left associativity, only parsing).

(** ** middleware/validation.js *)

Module Validation.
Import Schema.

Local Open Scope Z_scope.

(** [semanticSearchSchemas.primaryEmbedding]. *)
Definition primaryEmbedding : schema :=
  Joi.array
    |> Joi.items (Joi.number |> Joi.required)
    |> Joi.length 768
    |> Joi.required
    |> Joi.messages
         [("array.length", "Primary embedding must have exactly 768 dimensions");
          ("array.base", "Primary embedding must be an array of numbers")].

(** [semanticSearchSchemas.searchMetadata]. *)
Definition searchMetadata : schema :=
  Joi.object
    [("boost_factor", Joi.number |> Joi.min 0 |> Joi.max 10 |> Joi.default (VNum 1));
     ("recency_weight", Joi.number |> Joi.min 0 |> Joi.max 1 |> Joi.default (VNum 0.5));
     ("user_preference_alignment",
        Joi.number |> Joi.min 0 |> Joi.max 1 |> Joi.default (VNum 0.5))]
    |> Joi.default (VObj ∅).

Definition emotion_context_schema : schema :=
  Joi.object
    [("dominant_emotion", Joi.string_ |> Joi.optional);
     ("intensity", Joi.number |> Joi.min 0 |> Joi.max 1 |> Joi.optional);
     ("emotions",
        Joi.object
          [("joy", Joi.number |> Joi.min 0 |> Joi.max 1 |> Joi.optional);
           ("sadness", Joi.number |> Joi.min 0 |> Joi.max 1 |> Joi.optional);
           ("anger", Joi.number |> Joi.min 0 |> Joi.max 1 |> Joi.optional);
           ("fear", Joi.number |> Joi.min 0 |> Joi.max 1 |> Joi.optional);
           ("surprise", Joi.number |> Joi.min 0 |> Joi.max 1 |> Joi.optional);
           ("disgust", Joi.number |> Joi.min 0 |> Joi.max 1 |> Joi.optional);
           ("anticipation", Joi.number |> Joi.min 0 |> Joi.max 1 |> Joi.optional);
           ("trust", Joi.number |> Joi.min 0 |> Joi.max 1 |> Joi.optional)]
          |> Joi.optional)]
    |> Joi.optional.

Definition linked_entities_schema : schema :=
  Joi.object
    [("people", Joi.array |> Joi.items Joi.string_ |> Joi.required);
     ("locations", Joi.array |> Joi.items Joi.string_ |> Joi.required);
     ("events", Joi.array |> Joi.items Joi.string_ |> Joi.required);
     ("topics", Joi.array |> Joi.items Joi.string_ |> Joi.required)]
    |> Joi.required.

Definition temporal_context_schema : schema :=
  Joi.object
    [("hour_of_day", Joi.number |> Joi.integer |> Joi.min 0 |> Joi.max 23 |> Joi.optional);
     ("day_of_week", Joi.number |> Joi.integer |> Joi.min 0 |> Joi.max 6 |> Joi.optional);
     ("is_weekend", Joi.boolean |> Joi.optional)]
    |> Joi.optional.

Definition search_metadata_schema : schema :=
  Joi.object
    [("boost_factor", Joi.number |> Joi.min 0 |> Joi.required);
     ("recency_weight", Joi.number |> Joi.min 0 |> Joi.required);
     ("user_preference_alignment", Joi.number |> Joi.min 0 |> Joi.required)]
    |> Joi.optional.

(** The key list that [createSemanticSearchSchema] and
    [updateSemanticSearchSchema] both spell out. *)
Definition entry_keys : list (string * schema) :=
  [("user_id", Joi.string_ |> Joi.uuid |> Joi.required);
   ("entry_id", Joi.string_ |> Joi.uuid |> Joi.required);
   ("content_type", Joi.string_ |> Joi.max 10000 |> Joi.required);
   ("message_type", Joi.string_ |> Joi.optional);
   ("title", Joi.string_ |> Joi.max 1000 |> Joi.required);
   ("content", Joi.string_ |> Joi.required);
   ("session_id", Joi.string_ |> Joi.uuid |> Joi.required);
   ("conversation_context", Joi.string_ |> Joi.max 1000 |> Joi.optional);
   ("primary_embedding",
      Joi.array |> Joi.items (Joi.number |> Joi.required) |> Joi.length 768
        |> Joi.required);
   ("created_at", Joi.string_ |> Joi.required);
   ("updated_at", Joi.string_ |> Joi.required);
   ("lightweight_embedding",
      Joi.array |> Joi.items (Joi.number |> Joi.required) |> Joi.length 384
        |> Joi.optional);
   ("text_length", Joi.number |> Joi.integer |> Joi.min 0 |> Joi.optional);
   ("processing_time_ms", Joi.number |> Joi.min 0 |> Joi.optional);
   ("model_version", Joi.string_ |> Joi.optional);
   ("tags",
      Joi.array |> Joi.items (Joi.string_ |> Joi.max 100) |> Joi.max 20
        |> Joi.required);
   ("emotion_context", emotion_context_schema);
   ("linked_entities", linked_entities_schema);
   ("temporal_context", temporal_context_schema);
   ("search_metadata", search_metadata_schema)].

Definition createSemanticSearchSchema : schema := Joi.object entry_keys.

(** "now requires ALL fields like create (complete replacement)". *)
Definition updateSemanticSearchSchema : schema := Joi.object entry_keys.

Definition searchQuerySchema : schema :=
  Joi.object
    [("embedding", primaryEmbedding);
     ("user_id", Joi.string_ |> Joi.uuid |> Joi.optional);
     ("content_type", Joi.array |> Joi.items Joi.string_ |> Joi.optional);
     ("tags", Joi.array |> Joi.items Joi.string_ |> Joi.optional);
     ("limit",
        Joi.number |> Joi.integer |> Joi.min 1 |> Joi.max 100
          |> Joi.default (VNum 10));
     ("similarity_threshold",
        Joi.number |> Joi.min 0 |> Joi.max 1 |> Joi.default (VNum 0.7));
     ("boost_recent", Joi.boolean |> Joi.default (VBool false));
     ("boost_preferences", Joi.boolean |> Joi.default (VBool false))].

Definition paramsIdSchema : schema :=
  Joi.object [("id", Joi.string_ |> Joi.uuid |> Joi.required)].

(** One element of the [details] of a 400 answer. *)
Record field_error : Type := {
  field : string;
  problem : string;
  offending : option value
}.

(** [detail.path.join('.')]. *)
Definition segment_text (g : segment) : string :=
  match g with
  | Key k => k
  | Index i => decimal (Z.of_nat i)
  end.

Fixpoint join_path (p : list segment) : string :=
  match p with
  | [] => ""
  | [g] => segment_text g
  | g :: p' => segment_text g +:+ "." +:+ join_path p'
  end.

Definition to_field_error (d : detail) : field_error :=
  {| field := join_path (path d);
     problem := message d;
     offending := context_value d |}.

(** The middleware [validate(schema)]: [inl details] is the 400 answer,
    [inr value] is [next()] with the request property replaced by the
    converted value. *)
Definition validate (L : lib) (s : schema) (body : value)
  : list field_error + value :=
  match validate_at L s [] (Some body) with
  | ([], v) => inr (default body v)
  | (errors, _) => inl (map to_field_error errors)
  end.

(** A violation reported against [primary_embedding] whose message
    names the length 768. *)
Definition names_768 (d : field_error) : bool :=
  String.eqb (field d) "primary_embedding" && includes "768" (problem d).

(** [paramsUserIdSchema]. *)
Definition paramsUserIdSchema : schema :=
  Joi.object [("userId", Joi.string_ |> Joi.uuid |> Joi.required)].

End Validation.

(** ** services/semanticSearchService.js: the stored entries *)

Module Service.

(** [{...v}]: the own properties of a value; an array spreads its
    indices, a string its characters, the other primitives nothing. *)
Fixpoint characters (s : string) : list value :=
  match s with
  | EmptyString => []
  | String a s' => VStr (String a EmptyString) :: characters s'
  end.

Definition indexed (l : list value) : gmap string value :=
  list_to_map (imap (fun i x => (Schema.decimal (Z.of_nat i), x)) l).

Definition properties (v : value) : gmap string value :=
  match v with
  | VObj o => o
  | VArr l => indexed l
  | VStr s => indexed (characters s)
  | _ => ∅
  end.

(** [{...o, k: e}] where the expression [e] may be [undefined]: the
    property then hides the one of [o], and is not stored. *)
Definition set_property (k : string) (e : option value)
    (o : gmap string value) : gmap string value :=
  match e with
  | Some v => <[k:=v]> o
  | None => delete k o
  end.

(** What a service method gives back: [{success: true, data}],
    [{success: false, error}], or an exception (with the fixed part of its
    message). *)
Inductive outcome : Type :=
| Success (data : value)
| Failure (error : string)
| Thrown (message : string).

(** Modelled from the spec: the storage collaborator of section 6 (the
    client of the collection is not part of the sources). The collection is
    a finite map from the identity of a document to the document;
    [findOne({_id: id})] is [fetchById]. Every call is answered: a call that
    the database fails makes the method throw, at whatever point of its
    body, and is outside the model. *)
Definition findOne (id : string) (coll : gmap string (gmap string value))
  : option (gmap string value) :=
  coll !! id.

(** Modelled from the spec: [store(entry) -> ok | conflict] of section 6;
    [None] is the conflict (or an identity that is not a string), which the
    client raises as an exception. *)
Definition insertOne (doc : gmap string value)
    (coll : gmap string (gmap string value))
  : option (gmap string (gmap string value)) :=
  match doc !! "_id" with
  | Some (VStr k) =>
      match coll !! k with
      | None => Some (<[k:=doc]> coll)
      | Some _ => None
      end
  | _ => None
  end.

(** Modelled from the spec: [replace(id, entry) -> ok | notFound] of
    section 6, with the count of matched documents; the identity of a stored
    document cannot be changed, so a replacement that carries another
    [_id] is refused ([None], an exception of the client). *)
Definition replaceOne (id : string) (doc : gmap string value)
    (coll : gmap string (gmap string value))
  : option (gmap string (gmap string value) * nat) :=
  match coll !! id with
  | None => Some (coll, 0%nat)
  | Some _ =>
      match doc !! "_id" with
      | None => Some (<[id:=<["_id":=VStr id]> doc]> coll, 1%nat)
      | Some (VStr k) =>
          if String.eqb k id then Some (<[id:=doc]> coll, 1%nat) else None
      | Some _ => None
      end
  end.

(** [createEntry]; [uuid] is the result of [uuidv4()]. *)
Definition createEntry (uuid : string) (entryData : gmap string value)
    (coll : gmap string (gmap string value))
  : gmap string (gmap string value) * outcome :=
  let entry := entryData ∪ {["_id" := VStr uuid]} in
  match insertOne entry coll with
  | Some coll' =>
      (coll', Success (VObj (entry ∪ set_property "id" (entry !! "_id") ∅)))
  | None => (coll, Thrown "Failed to create semantic search entry")
  end.

Definition not_found : string := "Semantic search entry not found".

(** [{_id: id, ...newEntryData, created_at: existingEntry.created_at}]:
    "Create completely new entry data, preserving only id and
    created_at". A later property hides an earlier one of the same name. *)
Definition replacementEntry (id : string)
    (newEntryData existingEntry : gmap string value) : gmap string value :=
  set_property "created_at" (existingEntry !! "created_at")
    (newEntryData ∪ {["_id" := VStr id]}).

(** [updateEntry]: "REPLACES the entire entry". *)
Definition updateEntry (id : string) (newEntryData : gmap string value)
    (coll : gmap string (gmap string value))
  : gmap string (gmap string value) * outcome :=
  match findOne id coll with
  | None => (coll, Failure not_found)
  | Some existingEntry =>
      match
        replaceOne id (replacementEntry id newEntryData existingEntry) coll
      with
      | None => (coll, Thrown "Failed to update semantic search entry")
      | Some (coll', matchedCount) =>
          if (matchedCount =? 0)%nat then (coll', Failure not_found)
          else
            match findOne id coll' with
            | Some updatedEntry => (coll', Success (VObj updatedEntry))
            | None => (coll', Success VNull)
            end
      end
  end.

(** [getEntryById]. *)
Definition getEntryById (id : string) (coll : gmap string (gmap string value))
  : outcome :=
  match findOne id coll with
  | None => Failure not_found
  | Some result => Success (VObj result)
  end.

(** Modelled from the spec: [deleteById(id) -> ok | notFound] of section
    6, with the count of deleted documents. *)
Definition deleteOne (id : string) (coll : gmap string (gmap string value))
  : gmap string (gmap string value) * nat :=
  match coll !! id with
  | Some _ => (delete id coll, 1%nat)
  | None => (coll, 0%nat)
  end.

(** What [deleteEntry] gives back: [{success: true, message}] or
    [{success: false, error}]. *)
Inductive deletion : Type :=
| Deleted (message : string)
| NotDeleted (error : string).

(** [deleteEntry]. *)
Definition deleteEntry (id : string) (coll : gmap string (gmap string value))
  : gmap string (gmap string value) * deletion :=
  let '(coll', deletedCount) := deleteOne id coll in
  if (deletedCount =? 0)%nat then (coll', NotDeleted not_found)
  else (coll', Deleted "Semantic search entry deleted successfully").

(** The options of [getUserEntries]; an absent property is [None]. *)
Record list_options : Type := {
  page : option Z;
  limit : option Z;
  content_type : option string;
  sort_by : option string;
  sort_order : option string
}.

(** The filter and the sort handed to the collection. *)
Record user_filter : Type := {
  f_user_id : string;
  f_content_type : option string
}.

Record pagination : Type := {
  pg_page : Z;
  pg_limit : Z;
  pg_total : Z;
  pg_pages : option Z
}.

Record user_entries : Type := {
  entries : list (gmap string value);
  pages_info : pagination
}.

(** [(page - 1) * limit]. *)
Definition skip (page limit : Z) : Z := ((page - 1) * limit)%Z.

(** [Math.ceil(total / limit)]; a zero [limit] gives an infinity or
    [NaN], which is no number of pages ([None]). *)
Definition pages (total limit : Z) : option Z :=
  if (limit =? 0)%Z then None
  else Some (Qceiling (inject_Z total / inject_Z limit)).

(** [sortOptions[sort_by] = sort_order === 'desc' ? -1 : 1]. *)
Definition sortOptions (sort_by sort_order : string) : string * Z :=
  (sort_by, if String.eqb sort_order "desc" then (-1)%Z else 1%Z).

(** [getUserEntries]. The cursor [find(filter).sort(..).skip(..).limit(..)]
    and [countDocuments(filter)] are those of the collection. *)
Definition getUserEntries
    (find : user_filter -> string * Z -> Z -> Z -> list (gmap string value))
    (countDocuments : user_filter -> Z)
    (userId : string) (options : list_options) : user_entries :=
  let page := default 1%Z (page options) in
  let limit := default 10%Z (limit options) in
  let sort_by := default "created_at" (sort_by options) in
  let sort_order := default "desc" (sort_order options) in
  let filter :=
    {| f_user_id := userId;
       f_content_type :=
         match content_type options with
         | Some t => if String.eqb t "" then None else Some t
         | None => None
         end |} in
  let results :=
    find filter (sortOptions sort_by sort_order) (skip page limit) limit in
  let total := countDocuments filter in
  {| entries := results;
     pages_info := {| pg_page := page; pg_limit := limit; pg_total := total;
                      pg_pages := pages total limit |} |}.

End Service.

(** ** routes/semanticSearch.js: the routes on entries *)

Module Routes.
Import Schema Validation Service.

Inductive response : Type :=
| Created (data : value)
| OK (data : value)
| BadRequest (details : list field_error)
| NotFound (error : string)
| InternalError (message : string).

(** [POST /entries]: [validate(schemas.createSemanticSearch)], then
    [createEntry(req.body)]. *)
Definition post_entries (L : lib) (uuid : string) (body : value)
    (coll : gmap string (gmap string value))
  : gmap string (gmap string value) * response :=
  match validate L createSemanticSearchSchema body with
  | inl details => (coll, BadRequest details)
  | inr body' =>
      match createEntry uuid (properties body') coll with
      | (coll', Success data) => (coll', Created data)
      | (coll', Failure e) => (coll', InternalError e)
      | (coll', Thrown m) => (coll', InternalError m)
      end
  end.

(** [PUT /entries/:id]: [validate(schemas.paramsId, 'params')],
    [validate(schemas.updateSemanticSearch)], then
    [updateEntry(req.params.id, req.body)]. *)
Definition put_entries (L : lib) (id : string) (body : value)
    (coll : gmap string (gmap string value))
  : gmap string (gmap string value) * response :=
  match validate L paramsIdSchema (VObj {["id" := VStr id]}) with
  | inl details => (coll, BadRequest details)
  | inr params =>
      match validate L updateSemanticSearchSchema body with
      | inl details => (coll, BadRequest details)
      | inr body' =>
          match properties params !! "id" with
          | Some (VStr id') =>
              match updateEntry id' (properties body') coll with
              | (coll', Success data) => (coll', OK data)
              | (coll', Failure e) => (coll', NotFound e)
              | (coll', Thrown m) => (coll', InternalError m)
              end
          | _ => (coll, InternalError "id")
          end
      end
  end.

(** [GET /entries/:id]. *)
Definition get_entries (L : lib) (id : string)
    (coll : gmap string (gmap string value)) : response :=
  match validate L paramsIdSchema (VObj {["id" := VStr id]}) with
  | inl details => BadRequest details
  | inr params =>
      match properties params !! "id" with
      | Some (VStr id') =>
          match getEntryById id' coll with
          | Success data => OK data
          | Failure e => NotFound e
          | Thrown m => InternalError m
          end
      | _ => InternalError "id"
      end
  end.

(** The answers of [DELETE /entries/:id]: 200 with the message of the
    service, 400, 404. *)
Inductive removal : Type :=
| Removed (message : string)
| RemovalRefused (details : list field_error)
| NothingToRemove (error : string).

(** [DELETE /entries/:id]. *)
Definition delete_entries (L : lib) (id : string)
    (coll : gmap string (gmap string value))
  : gmap string (gmap string value) * removal :=
  match validate L paramsIdSchema (VObj {["id" := VStr id]}) with
  | inl details => (coll, RemovalRefused details)
  | inr params =>
      match properties params !! "id" with
      | Some (VStr id') =>
          match deleteEntry id' coll with
          | (coll', Deleted m) => (coll', Removed m)
          | (coll', NotDeleted e) => (coll', NothingToRemove e)
          end
      | _ => (coll, NothingToRemove "id")
      end
  end.

(** [parseInt(text) || d]: [parsed] is the result of [parseInt], [None]
    for [NaN]; 0 and [NaN] are falsy. *)
Definition int_or (parsed : option Z) (d : Z) : Z :=
  match parsed with
  | Some z => if (z =? 0)%Z then d else z
  | None => d
  end.

(** [s || d] for a query parameter: absent and empty are falsy. *)
Definition text_or (s : option string) (d : string) : string :=
  match s with
  | Some t => if String.eqb t "" then d else t
  | None => d
  end.

(** The [options] that [GET /users/:userId/entries] builds from the
    query string. *)
Definition user_entries_options (page limit : option Z)
    (content_type sort_by sort_order : option string) : list_options :=
  {| Service.page := Some (int_or page 1);
     Service.limit := Some (int_or limit 10);
     Service.content_type := content_type;
     Service.sort_by := Some (text_or sort_by "created_at");
     Service.sort_order := Some (text_or sort_order "desc") |}.

End Routes.

(** ** middleware/errorHandler.js *)

Module ErrorHandler.

(** The properties of the error that the handler reads. *)
Record err : Type := {
  message : option string;
  status : option Z;
  isJoi : bool;
  details : list Schema.detail;
  code : option Z;
  name : option string;
  stack : option string
}.

(** The answer: the status, and the body
    [{success: false, error, details?, stack?}]. *)
Record reply : Type := {
  r_status : Z;
  r_error : string;
  r_details : option (list (string * string));
  r_stack : option string
}.

(** The local [error] while the handler runs. *)
Record draft : Type := {
  d_message : string;
  d_status : Z;
  d_details : option (list (string * string));
  d_stack : option string
}.

(** [err.message && err.message.includes(word)]. *)
Definition mentions (e : err) (word : string) : bool :=
  match message e with
  | Some m => negb (String.eqb m "") && Schema.includes word m
  | None => false
  end.

(** "Default error": [err.message || 'Internal Server Error'] and
    [err.status || 500]. *)
Definition initial (e : err) : draft :=
  {| d_message :=
       match message e with
       | Some m => if String.eqb m "" then "Internal Server Error" else m
       | None => "Internal Server Error"
       end;
     d_status :=
       match status e with
       | Some z => if (z =? 0)%Z then 500%Z else z
       | None => 500%Z
       end;
     d_details := None;
     d_stack := None |}.

Definition set_error (st : Z) (m : string) (d : draft) : draft :=
  {| d_message := m; d_status := st; d_details := d_details d;
     d_stack := d_stack d |}.

(** "Joi validation errors". *)
Definition joi_step (e : err) (d : draft) : draft :=
  if isJoi e
  then {| d_message := "Validation Error"; d_status := 400%Z;
          d_details :=
            Some (map (fun x => (Validation.join_path (Schema.path x),
                                 Schema.message x)) (details e));
          d_stack := d_stack d |}
  else d.

(** "AstraDB specific errors". *)
Definition astra_step (e : err) (d : draft) : draft :=
  if mentions e "AstraDB" then set_error 503 "Database service unavailable" d
  else d.

(** "Duplicate key errors". *)
Definition duplicate_step (e : err) (d : draft) : draft :=
  match code e with
  | Some 11000%Z => set_error 409 "Duplicate entry found" d
  | _ => d
  end.

(** "Cast errors". *)
Definition cast_step (e : err) (d : draft) : draft :=
  match name e with
  | Some n => if String.eqb n "CastError"
              then set_error 400 "Invalid data format" d else d
  | None => d
  end.

(** "Token/Auth errors". *)
Definition auth_step (e : err) (d : draft) : draft :=
  if mentions e "token" || mentions e "auth"
  then set_error 401 "Authentication failed" d
  else d.

(** "Rate limiting errors": the message only. *)
Definition rate_step (e : err) (d : draft) : draft :=
  match status e with
  | Some 429%Z =>
      set_error (d_status d) "Too many requests, please try again later" d
  | _ => d
  end.

(** "Don't leak error details in production". *)
Definition production_step (production : bool) (e : err) (d : draft) : draft :=
  if production && (d_status d =? 500)%Z
  then {| d_message := "Internal Server Error"; d_status := d_status d;
          d_details := d_details d; d_stack := None |}
  else {| d_message := d_message d; d_status := d_status d;
          d_details := d_details d; d_stack := stack e |}.

(** [errorHandler]; [production] is
    [process.env.NODE_ENV === 'production']. *)
Definition errorHandler (production : bool) (e : err) : reply :=
  let d :=
    production_step production e
      (rate_step e
         (auth_step e
            (cast_step e
               (duplicate_step e (astra_step e (joi_step e (initial e))))))) in
  {| r_status := d_status d;
     r_error := d_message d;
     r_details := d_details d;
     r_stack :=
       match d_stack d with
       | Some t => if negb (String.eqb t "") && negb production
                   then Some t else None
       | None => None
       end |}.

End ErrorHandler.

(** ** Concrete inputs for the examples *)

Module Sample.
Import Schema.

Local Open Scope Z_scope.

Definition hex (a : Ascii.ascii) : bool :=
  let n := Ascii.nat_of_ascii a in
  ((48 <=? n) && (n <=? 57) || (65 <=? n) && (n <=? 70)
   || (97 <=? n) && (n <=? 102))%nat.

Fixpoint hyphenated (groups : list nat) (s : string) : bool :=
  match groups with
  | [] => String.eqb s ""
  | g :: groups' =>
      forallb hex (String.list_ascii_of_string (String.substring 0 g s))
      && (String.length (String.substring 0 g s) =? g)%nat
      && match groups' with
         | [] => (String.length s =? g)%nat
         | _ =>
             match String.get g s with
             | Some a =>
                 Ascii.eqb a (Ascii.ascii_of_nat 45)
                 && hyphenated groups'
                      (String.substring (S g) (String.length s - S g) s)
             | None => false
             end
         end
  end.

(** The hyphenated form [8-4-4-4-12] of an identifier, the one [uuidv4()]
    prints. *)
Definition guid_8_4_4_4_12 : string -> bool :=
  hyphenated [8; 4; 4; 4; 12]%nat.

(** The integer of binary64 nearest to [z], ties to even. *)
Definition binary64 (z : Z) : Z :=
  let a := Z.abs z in
  if (a <? 2 ^ 53)%Z then z
  else
    let e := (Z.log2 a - 52)%Z in
    let q := (a / 2 ^ e)%Z in
    let r := (a mod 2 ^ e)%Z in
    let up := (2 ^ (e - 1) <? r)%Z || ((2 ^ (e - 1) =? r)%Z && Z.odd q) in
    (Z.sgn z * ((if up then q + 1 else q) * 2 ^ e))%Z.

(** Integer literals, enough for the examples: [parseFloat] of the
    digits. *)
Definition integer_literal (s : string) : option Q :=
  match NilZero.int_of_string s with
  | Some i => Some (inject_Z (binary64 (Z.of_int i)))
  | None => None
  end.

(** The digits of an integer literal are compared with those that
    [toString] prints for the number, unless it prints an exponent (from
    [1e21] on). *)
Definition precise_literal (s : string) : bool :=
  match NilZero.int_of_string s with
  | Some i =>
      let z := Z.of_int i in
      (10 ^ 21 <=? Z.abs (binary64 z))%Z || (binary64 z =? z)%Z
  | None => true
  end.

Definition L : lib :=
  {| guid := guid_8_4_4_4_12; number_rx := integer_literal;
     precise := precise_literal |}.

Definition an_id : string := "123e4567-e89b-12d3-a456-426614174000".
Definition a_user : string := "9b2f7c1e-5d3a-4e8b-a1c4-0f6e7d8c9b0a".
Definition a_session : string := "0a1b2c3d-4e5f-4a6b-8c7d-9e0f1a2b3c4d".

Definition knob_values (factor weight alignment : Q) : gmap string value :=
  list_to_map
    [("boost_factor", VNum factor); ("recency_weight", VNum weight);
     ("user_preference_alignment", VNum alignment)].

(** A request body with every mandatory field, after the example of the
    README. *)
Definition entry_body (created updated : string) (embedding : value)
    (knobs : gmap string value) : gmap string value :=
  list_to_map
    [("user_id", VStr a_user);
     ("entry_id", VStr an_id);
     ("content_type", VStr "journal_entry");
     ("title", VStr "My Daily Reflection");
     ("content", VStr "Today I learned about semantic search...");
     ("session_id", VStr a_session);
     ("primary_embedding", embedding);
     ("created_at", VStr created);
     ("updated_at", VStr updated);
     ("tags", VArr [VStr "learning"; VStr "reflection"]);
     ("linked_entities",
        VObj (list_to_map
                [("people", VArr []); ("locations", VArr []);
                 ("events", VArr []);
                 ("topics", VArr [VStr "semantic-search"; VStr "ai"])]));
     ("search_metadata", VObj knobs)].

Definition embedding_768 : value := VArr (replicate 768 (VNum 0.25)).

(** An entry stored in June 2023 under [an_id]. *)
Definition stored_entry : gmap string value :=
  <["_id":=VStr an_id]>
    (entry_body "2023-06-01T08:00:00.000Z" "2023-06-01T08:00:00.000Z"
       embedding_768 (knob_values 1 0.5 0.7)).

(** A replacement that passes validation, and the request that carries
    it together with an [_id] of its own. *)
Definition replacement_body : gmap string value :=
  entry_body "2024-01-01T00:00:00.000Z" "2024-01-02T00:00:00.000Z"
    embedding_768 (knob_values 2 0.25 0.5).

Definition tampered_body : gmap string value :=
  <["_id":=VStr a_user]> replacement_body.

(** A body whose [updated_at] is one day before its [created_at]. *)
Definition backdated_body : gmap string value :=
  entry_body "2024-01-02T00:00:00.000Z" "2024-01-01T00:00:00.000Z"
    embedding_768 (knob_values 1 0.5 0.7).

(** The embedding above with the string [x] in place of item 5. *)
Definition embedding_with_a_string : value :=
  VArr (replicate 5 (VNum 0.25) ++ VStr "x" :: replicate 762 (VNum 0.25)).

(** Dates in the format of [toISOString()], [YYYY-MM-DDTHH:mm:ss.sssZ]. *)
Definition digit (a : Ascii.ascii) : option Z :=
  let n := Ascii.nat_of_ascii a in
  if ((48 <=? n) && (n <=? 57))%nat then Some (Z.of_nat (n - 48)) else None.

Fixpoint digits (s : string) (acc : Z) : option Z :=
  match s with
  | EmptyString => Some acc
  | String a s' =>
      match digit a with
      | Some d => digits s' (10 * acc + d)
      | None => None
      end
  end.

Definition number_at (s : string) (start len : nat) : option Z :=
  let t := String.substring start len s in
  if (String.length t =? len)%nat then digits t 0 else None.

Definition char_at (s : string) (i : nat) (c : nat) : bool :=
  match String.get i s with
  | Some a => (Ascii.nat_of_ascii a =? c)%nat
  | None => false
  end.

Definition leap (y : Z) : bool :=
  (y mod 4 =? 0) && (negb (y mod 100 =? 0) || (y mod 400 =? 0)).

Definition days_in_month (y m : Z) : Z :=
  if m =? 2 then (if leap y then 29 else 28)
  else if (m =? 4) || (m =? 6) || (m =? 9) || (m =? 11) then 30
  else 31.

(** Days from 1970-01-01 to the civil date [y-m-d]. *)
Definition days_from_civil (y m d : Z) : Z :=
  let y' := if m <=? 2 then y - 1 else y in
  let era := y' / 400 in
  let yoe := y' - era * 400 in
  let doy := (153 * (if 2 <? m then m - 3 else m + 9) + 2) / 5 + d - 1 in
  let doe := yoe * 365 + yoe / 4 - yoe / 100 + doy in
  era * 146097 + doe - 719468.

Definition iso_ms (s : string) : option Z :=
  if (String.length s =? 24)%nat
     && char_at s 4 45 && char_at s 7 45 && char_at s 10 84
     && char_at s 13 58 && char_at s 16 58 && char_at s 19 46
     && char_at s 23 90
  then
    y ← number_at s 0 4; m ← number_at s 5 2; d ← number_at s 8 2;
    h ← number_at s 11 2; mi ← number_at s 14 2; sec ← number_at s 17 2;
    ms ← number_at s 20 3;
    if (1 <=? m) && (m <=? 12) && (1 <=? d) && (d <=? days_in_month y m)
       && (h <=? 23) && (mi <=? 59) && (sec <=? 59)
    then Some ((((days_from_civil y m d * 24 + h) * 60 + mi) * 60 + sec) * 1000 + ms)
    else None
  else None.

Definition Date_parse (s : string) : JS.num :=
  match iso_ms s with
  | Some z => JS.Num (IZR z)
  | None => JS.NaN
  end.

(** A clock that reads [ms] milliseconds after 1970-01-01. *)
Definition clock_at (ms : Z) : Ranking.clock :=
  {| Ranking.now := IZR ms; Ranking.Date_parse := Date_parse |}.

Definition new_year : string := "2024-01-01T00:00:00.000Z".
Definition new_year_ms : Z := 1704067200000.
Definition day_ms : Z := 86400000.

Definition knobs (factor weight alignment : R) : Ranking.search_metadata :=
  {| Ranking.boost_factor := Some (JS.Num factor);
     Ranking.recency_weight := Some (JS.Num weight);
     Ranking.user_preference_alignment := Some (JS.Num alignment) |}.

Definition hit (sim : R) (created : option string)
    (m : option Ranking.search_metadata) : Ranking.result :=
  {| Ranking.similarity := JS.Num sim;
     Ranking.original_similarity := None;
     Ranking.created_at := created;
     Ranking.metadata := m;
     Ranking.fields := ∅ |}.

Definition recent_only : Ranking.options :=
  {| Ranking.boost_recent := true; Ranking.boost_preferences := false |}.

Definition preferences_only : Ranking.options :=
  {| Ranking.boost_recent := false; Ranking.boost_preferences := true |}.

Definition no_boost : Ranking.options :=
  {| Ranking.boost_recent := false; Ranking.boost_preferences := false |}.

End Sample.

(* ===================================================================== *)
(** * Part II: properties                                                 *)
(* ===================================================================== *)

(** ** Numbers and sorting *)

Module JSFacts.
Import JS.

Local Open Scope R_scope.

Lemma ge_Num (x t : R) : ge (Num x) (Num t) = true <-> t <= x.
Proof.
  unfold ge. destruct (Rle_dec t x) as [H | H]; split; intros; auto; discriminate.
Qed.

Lemma ge_at_least (a b : num) : ge a b = true <-> at_least a b.
Proof.
  destruct a as [x|], b as [t|]; simpl; try (split; [discriminate | tauto]).
  apply ge_Num.
Qed.

Lemma ge_NaN_l (b : num) : ge NaN b = false.
Proof. reflexivity. Qed.

Lemma ge_NaN_r (a : num) : ge a NaN = false.
Proof. destruct a; reflexivity. Qed.

Lemma truthy_Num (x : R) : truthy (Num x) = true <-> x <> 0.
Proof.
  unfold truthy. destruct (Req_dec_T x 0); split; intros; auto; try discriminate;
    try contradiction.
Qed.

Lemma strict_ne_Num (x y : R) : strict_ne (Num x) (Num y) = true <-> x <> y.
Proof.
  unfold strict_ne. destruct (Req_dec_T x y); split; intros; auto;
    try discriminate; try contradiction.
Qed.

Lemma or_default_absent (d : num) : or_default None d = d.
Proof. reflexivity. Qed.

Lemma or_default_nonzero (x : R) (d : num) :
  x <> 0 -> or_default (Some (Num x)) d = Num x.
Proof.
  intros Hx. unfold or_default.
  destruct (truthy (Num x)) eqn:E; [reflexivity|].
  apply truthy_Num in Hx. congruence.
Qed.

Lemma or_default_zero (d : num) : or_default (Some (Num 0)) d = d.
Proof.
  unfold or_default, truthy. destruct (Req_dec_T 0 0); [reflexivity | contradiction].
Qed.

Lemma Math_min_not_above (a : num) (y : R) : ~ gt (Math_min a (Num y)) (Num y).
Proof.
  destruct a as [x|]; simpl; [|tauto].
  pose proof (Rmin_r x y). lra.
Qed.

Lemma add_NaN_r (a : num) : add a NaN = NaN.
Proof. destruct a; reflexivity. Qed.

Lemma mul_NaN_r (a : num) : mul a NaN = NaN.
Proof. destruct a; reflexivity. Qed.

Lemma Sorted_weaken {A : Type} (R R' : A -> A -> Prop) (l : list A) :
  (forall a b, R a b -> R' a b) -> Sorted R l -> Sorted R' l.
Proof.
  intros HR Hl. induction Hl as [|x l Hl IH Hhd]; constructor; [done|].
  destruct Hhd; constructor. by apply HR.
Qed.

Section SortFacts.
Context {A : Type} (comparefn : A -> A -> num).

Lemma sort_insert_Permutation (x : A) (l : list A) :
  sort_insert comparefn x l ≡ₚ x :: l.
Proof.
  induction l as [|y l IH]; simpl; [reflexivity|].
  destruct (negative (comparefn y x)); [|reflexivity].
  rewrite IH. apply perm_swap.
Qed.

Lemma sort_Permutation (l : list A) : sort comparefn l ≡ₚ l.
Proof.
  induction l as [|x l IH]; simpl; [reflexivity|].
  rewrite sort_insert_Permutation. by rewrite IH.
Qed.

Lemma sort_length (l : list A) : length (sort comparefn l) = length l.
Proof. apply Permutation_length, sort_Permutation. Qed.

(** With a comparator that never puts two elements before each other,
    no element of the result should have come before its predecessor. *)
Hypothesis comparefn_asym :
  forall x y, negative (comparefn x y) = true -> negative (comparefn y x) = false.

Lemma sort_insert_Sorted (x : A) (l : list A) :
  Sorted (fun a b => negative (comparefn b a) = false) l ->
  Sorted (fun a b => negative (comparefn b a) = false) (sort_insert comparefn x l).
Proof.
  induction l as [|y l IH]; intros Hl; simpl.
  - repeat constructor.
  - destruct (negative (comparefn y x)) eqn:E.
    + apply Sorted_inv in Hl as [Hl Hhd]. constructor; [by apply IH|].
      destruct l as [|z l]; simpl.
      * constructor. by apply comparefn_asym.
      * destruct (negative (comparefn z x)); constructor.
        -- by inversion Hhd.
        -- by apply comparefn_asym.
    + constructor; [done|]. by constructor.
Qed.

Lemma sort_Sorted (l : list A) :
  Sorted (fun a b => negative (comparefn b a) = false) (sort comparefn l).
Proof.
  induction l as [|x l IH]; simpl; [constructor|]. by apply sort_insert_Sorted.
Qed.

End SortFacts.

End JSFacts.

(** ** The ranking engine *)

Module RankingFacts.
Import JS Ranking JSFacts.

Local Open Scope R_scope.

Lemma applyBoosting_Permutation (c : clock) (l : list result) (o : options) :
  applyBoosting c l o ≡ₚ map (boost c o) l.
Proof. apply sort_Permutation. Qed.

Lemma applyBoosting_length (c : clock) (l : list result) (o : options) :
  length (applyBoosting c l o) = length l.
Proof. unfold applyBoosting. by rewrite sort_length, length_map. Qed.

(** The result of the boosting pass is in descending order: no record has
    a similarity greater than the one of the record before it. *)
Lemma applyBoosting_descending (c : clock) (l : list result) (o : options) :
  Sorted (fun a b => ~ gt (similarity b) (similarity a)) (applyBoosting c l o).
Proof.
  unfold applyBoosting.
  eapply Sorted_weaken; [|apply (sort_Sorted by_similarity_desc)].
  - intros a b H Hgt. unfold by_similarity_desc, negative, sub, gt in *.
    destruct (similarity a) as [x|], (similarity b) as [y|]; try done.
    destruct (Rlt_dec (x - y) 0); [discriminate | lra].
  - intros x y. unfold by_similarity_desc, negative, sub.
    destruct (similarity x) as [a|], (similarity y) as [b|]; try done.
    destruct (Rlt_dec (b - a) 0), (Rlt_dec (a - b) 0); try done. lra.
Qed.

(** C1. The ranking pass keeps exactly the candidates whose raw similarity
    is at least the threshold, in the order received; without a boost flag
    they are the result, with one the result is a rearrangement of their
    boosted records; the total is their number, and no candidate gives the
    empty result with total 0. [searchSimilar] is that pass on the answer of
    the collection, with the threshold 0.7 and no boost by default. *)
Theorem rank_threshold_cut (c : clock) (candidates : list result)
    (threshold : num) (o : options)
    (find : query_filter -> list num -> nat -> list result) (q : queryData) :
  (forall r, r ∈ filteredResults candidates threshold
             <-> r ∈ candidates /\ at_least (similarity r) threshold)
  /\ sublist (filteredResults candidates threshold) candidates
  /\ results (rank c candidates threshold
                {| boost_recent := false; boost_preferences := false |})
     = filteredResults candidates threshold
  /\ results (rank c candidates threshold o)
     ≡ₚ (if boost_recent o || boost_preferences o
         then map (boost c o) (filteredResults candidates threshold)
         else filteredResults candidates threshold)
  /\ total (rank c candidates threshold o)
     = length (filteredResults candidates threshold)
  /\ total (rank c candidates threshold o)
     = length (results (rank c candidates threshold o))
  /\ rank c [] threshold o
     = {| results := []; total := 0; applied_threshold := threshold;
          boost_applied := boost_recent o || boost_preferences o |}
  /\ searchSimilar find c q
     = rank c (find (build_filter q) (embedding q) (default 10%nat (limit q)))
         (default (Num 0.7) (similarity_threshold q))
         {| boost_recent := default false (q_boost_recent q);
            boost_preferences := default false (q_boost_preferences q) |}.
Proof.
  split; [|split; [|split; [|split; [|split; [|split; [|split]]]]]].
  - intros r. unfold filteredResults.
    rewrite list_elem_of_filter, ge_at_least. tauto.
  - apply sublist_filter.
  - reflexivity.
  - unfold rank; simpl. destruct (boost_recent o || boost_preferences o).
    + apply applyBoosting_Permutation.
    + reflexivity.
  - unfold rank; simpl. destruct (boost_recent o || boost_preferences o).
    + apply applyBoosting_length.
    + reflexivity.
  - reflexivity.
  - unfold rank; simpl. by destruct (boost_recent o || boost_preferences o).
  - reflexivity.
Qed.

(** The example of the specification: similarities [0.9, 0.6, 0.75] with
    threshold [0.7] and no boost give [0.9, 0.75]. *)
Example rank_drops_the_low_candidate :
  map similarity
    (results (rank (Sample.clock_at Sample.new_year_ms)
                [Sample.hit 0.9 None None; Sample.hit 0.6 None None;
                 Sample.hit 0.75 None None]
                (Num 0.7) Sample.no_boost))
  = [Num 0.9; Num 0.75].
Proof.
  unfold rank, filteredResults; simpl.
  rewrite filter_cons_True by (apply ge_Num; lra).
  rewrite filter_cons_False by (intros H; apply ge_Num in H; lra).
  rewrite filter_cons_True by (apply ge_Num; lra).
  reflexivity.
Qed.

(** C3. Whatever the flags and the knobs of the entries, no record that
    the boosting pass returns has a similarity greater than 1. *)
Theorem adjusted_similarity_at_most_one (c : clock) (l : list result)
    (o : options) :
  Forall (fun r => ~ gt (similarity r) (Num 1)) (applyBoosting c l o).
Proof.
  rewrite applyBoosting_Permutation.
  apply Forall_map, Forall_forall. intros r _. apply Math_min_not_above.
Qed.

(** C10. The boosting pass returns a rearrangement of its input: the
    output has one record per input record, equal to it but for
    [$similarity] and [$original_similarity], and its
    [$original_similarity] is the raw [$similarity] of that record. *)
Theorem applyBoosting_rearranges (c : clock) (l : list result) (o : options) :
  exists l' : list result,
    l' ≡ₚ l
    /\ length (applyBoosting c l o) = length l
    /\ Forall2
         (fun r r' =>
            original_similarity r' = Some (similarity r)
            /\ similarity r' = Math_min (adjustedSimilarity c o r) (Num 1)
            /\ created_at r' = created_at r
            /\ metadata r' = metadata r
            /\ fields r' = fields r)
         l' (applyBoosting c l o).
Proof.
  destruct (Permutation_map_inv (boost c o) l
              (applyBoosting_Permutation c l o)) as (l' & Heq & Hperm).
  exists l'. split; [by symmetry|]. split; [apply applyBoosting_length|].
  rewrite Heq. clear. induction l' as [|r l' IH]; simpl; constructor; auto.
Qed.

(** *** The recency boost *)

Lemma day_nonzero : 1000 * 60 * 60 * 24 <> 0.
Proof. lra. Qed.

Lemma daysSinceCreated_Num (c : clock) (r : result) (t : R) :
  createdAt c r = Num t ->
  daysSinceCreated c r = Num ((now c - t) / 86400000).
Proof.
  intros Ht. unfold daysSinceCreated. rewrite Ht. simpl.
  destruct (Req_dec_T (1000 * 60 * 60 * 24) 0) as [E | _]; [lra|].
  f_equal. lra.
Qed.

Lemma recency_step_value (c : clock) (o : options) (r : result) (x t w : R) :
  boost_recent o = true ->
  createdAt c r = Num t ->
  or_default (recency_weight (metadata_or_empty r)) (Num 0.5) = Num w ->
  recency_step c o r (Num x)
  = Num (x + exp (- 0.1 * ((now c - t) / 86400000)) * w * 0.1).
Proof.
  intros Ho Ht Hw. unfold recency_step, recencyBoost.
  rewrite Ho, Hw, (daysSinceCreated_Num c r t Ht). simpl.
  replace (- ((now c - t) / 86400000) * 0.1)
    with (- 0.1 * ((now c - t) / 86400000)) by lra.
  reflexivity.
Qed.

Lemma Date_parse_new_year :
  Sample.Date_parse Sample.new_year = Num (IZR Sample.new_year_ms).
Proof.
  unfold Sample.Date_parse.
  replace (Sample.iso_ms Sample.new_year) with (Some Sample.new_year_ms)
    by (vm_compute; reflexivity).
  reflexivity.
Qed.

Lemma Date_parse_next_day :
  Sample.Date_parse "2024-01-02T00:00:00.000Z"
  = Num (IZR (Sample.new_year_ms + Sample.day_ms)).
Proof.
  unfold Sample.Date_parse.
  replace (Sample.iso_ms "2024-01-02T00:00:00.000Z")
    with (Some (Sample.new_year_ms + Sample.day_ms)%Z)
    by (vm_compute; reflexivity).
  reflexivity.
Qed.

(** C4, as the code has it. With [boost_recent] set and a [created_at]
    that is a date, the amount added is [exp(-0.1 * age_days) * w * 0.1],
    where [age_days] is the age in days, negative for a date in the future,
    and [w] is the [recency_weight] of the entry when it carries one that
    is not zero, 0.5 when it carries none. For an entry that is not in the
    future and a weight that is not negative, the amount lies between 0 and
    [0.1 * w]. *)
Theorem recency_boost_amount (c : clock) (o : options) (r : result)
    (x t w : R) :
  boost_recent o = true ->
  createdAt c r = Num t ->
  (recency_weight (metadata_or_empty r) = None /\ w = 0.5
   \/ recency_weight (metadata_or_empty r) = Some (Num w) /\ w <> 0) ->
  recency_step c o r (Num x)
  = Num (x + exp (- 0.1 * ((now c - t) / 86400000)) * w * 0.1)
  /\ (t <= now c -> 0 <= w ->
      0 <= exp (- 0.1 * ((now c - t) / 86400000)) * w * 0.1 <= 0.1 * w).
Proof.
  intros Ho Ht Hw. split.
  - apply recency_step_value; auto.
    destruct Hw as [[-> ->] | [-> Hw]]; [reflexivity|].
    by apply or_default_nonzero.
  - intros Hage Hpos.
    pose proof (exp_pos (- 0.1 * ((now c - t) / 86400000))) as Hexp.
    assert (exp (- 0.1 * ((now c - t) / 86400000)) <= 1) as Hle.
    { rewrite <- exp_0.
      destruct (Req_dec_T (- 0.1 * ((now c - t) / 86400000)) 0) as [-> | Hne];
        [lra|].
      left. apply exp_increasing.
      lra. }
    nra.
Qed.

Lemma recency_boost_amount_witness :
  boost_recent Sample.recent_only = true
  /\ createdAt (Sample.clock_at Sample.new_year_ms)
       (Sample.hit 0.8 (Some Sample.new_year) (Some (Sample.knobs 1 0.5 0.5)))
     = Num (IZR Sample.new_year_ms)
  /\ recency_step (Sample.clock_at Sample.new_year_ms) Sample.recent_only
       (Sample.hit 0.8 (Some Sample.new_year) (Some (Sample.knobs 1 0.5 0.5)))
       (Num 0.8)
     = Num (0.8 + exp (- 0.1 * ((IZR Sample.new_year_ms - IZR Sample.new_year_ms)
                                / 86400000)) * 0.5 * 0.1).
Proof.
  split; [reflexivity|]. split; [exact Date_parse_new_year|].
  apply (recency_boost_amount (Sample.clock_at Sample.new_year_ms)
           Sample.recent_only
           (Sample.hit 0.8 (Some Sample.new_year) (Some (Sample.knobs 1 0.5 0.5)))
           0.8 (IZR Sample.new_year_ms) 0.5).
  - reflexivity.
  - exact Date_parse_new_year.
  - right. split; [reflexivity | lra].
Defined.

(** C4 as stated fails on an entry created one day after [now]: its age
    is -1 day, the code adds [exp(0.1) * 0.5 * 0.1], more than the
    [0.1 * 0.5] of a same-day entry, and not the clamped amount. *)
Lemma recency_of_a_future_entry :
  daysSinceCreated (Sample.clock_at Sample.new_year_ms)
    (Sample.hit 0.8 (Some "2024-01-02T00:00:00.000Z")
       (Some (Sample.knobs 1 0.5 0.5)))
  = Num (- 1)
  /\ recency_step (Sample.clock_at Sample.new_year_ms) Sample.recent_only
       (Sample.hit 0.8 (Some "2024-01-02T00:00:00.000Z")
          (Some (Sample.knobs 1 0.5 0.5)))
       (Num 0.8)
     <> Num (0.8 + Claimed.recency_contribution (- 1) (Some 0.5))
  /\ exists added : R,
       recency_step (Sample.clock_at Sample.new_year_ms) Sample.recent_only
         (Sample.hit 0.8 (Some "2024-01-02T00:00:00.000Z")
            (Some (Sample.knobs 1 0.5 0.5)))
         (Num 0.8)
       = Num (0.8 + added)
       /\ added > 0.1 * 0.5.
Proof.
  assert (IZR (Sample.new_year_ms + Sample.day_ms)
          = IZR Sample.new_year_ms + 86400000) as Hday.
  { unfold Sample.day_ms. rewrite plus_IZR. lra. }
  assert (1 < exp 0.1) as Hexp.
  { pose proof (exp_ineq1 0.1). lra. }
  assert (recency_step (Sample.clock_at Sample.new_year_ms) Sample.recent_only
            (Sample.hit 0.8 (Some "2024-01-02T00:00:00.000Z")
               (Some (Sample.knobs 1 0.5 0.5)))
            (Num 0.8)
          = Num (0.8 + exp 0.1 * 0.5 * 0.1)) as Hstep.
  { rewrite (recency_step_value _ _ _ 0.8
               (IZR (Sample.new_year_ms + Sample.day_ms)) 0.5);
      [|reflexivity|exact Date_parse_next_day|apply or_default_nonzero; lra].
    do 4 f_equal. f_equal. simpl. rewrite Hday. lra. }
  split; [|split].
  - rewrite (daysSinceCreated_Num _ _ (IZR (Sample.new_year_ms + Sample.day_ms)))
      by exact Date_parse_next_day.
    f_equal. simpl. rewrite Hday. lra.
  - rewrite Hstep. unfold Claimed.recency_contribution. simpl.
    rewrite Rmax_left by lra.
    replace (- 0.1 * 0) with 0 by lra. rewrite exp_0.
    intros H. injection H as H. lra.
  - exists (exp 0.1 * 0.5 * 0.1). split; [exact Hstep | lra].
Qed.

(** The other half of C4: a [recency_weight] of 0 is carried by the entry,
    yet [||] replaces it with 0.5. *)
Example recency_weight_zero_counts_as_half :
  recency_step (Sample.clock_at Sample.new_year_ms) Sample.recent_only
    (Sample.hit 0.8 (Some Sample.new_year) (Some (Sample.knobs 1 0 0.5)))
    (Num 0.8)
  = Num (0.8 + 0.05).
Proof.
  rewrite (recency_step_value _ _ _ 0.8 (IZR Sample.new_year_ms) 0.5);
    [|reflexivity|exact Date_parse_new_year|apply or_default_zero].
  f_equal. simpl.
  replace (- 0.1 * ((IZR Sample.new_year_ms - IZR Sample.new_year_ms) / 86400000))
    with 0 by lra.
  rewrite exp_0. lra.
Qed.

(** *** Numbers in, numbers out *)

(** The bound of C3 is not reached through [NaN] alone: for a raw
    similarity that is a number, a [created_at] that is a date and knobs
    that are numbers, the reported similarity is a number, at most 1. *)
Lemma or_default_numeric (k : option num) (d : R) :
  numeric_knob k -> exists w : R, or_default k (Num d) = Num w.
Proof.
  destruct k as [[w|]|]; simpl; intros H; try done; [|by exists d].
  destruct (Req_dec_T w 0); [by exists d | by exists w].
Qed.

Lemma boost_of_numbers (c : clock) (o : options) (r : result) (x t : R) :
  similarity r = Num x ->
  createdAt c r = Num t ->
  numeric_knob (boost_factor (metadata_or_empty r)) ->
  numeric_knob (recency_weight (metadata_or_empty r)) ->
  numeric_knob (user_preference_alignment (metadata_or_empty r)) ->
  exists y : R, similarity (boost c o r) = Num y /\ y <= 1.
Proof.
  intros Hx Ht Hf Hw Ha.
  destruct (or_default_numeric _ 0.5 Hw) as [w Ew].
  destruct (or_default_numeric _ 0.5 Ha) as [a Ea].
  assert (exists x1, recency_step c o r (similarity r) = Num x1) as [x1 E1].
  { rewrite Hx. destruct (boost_recent o) eqn:Eo.
    - rewrite (recency_step_value c o r x t w Eo Ht Ew). by eexists.
    - unfold recency_step. rewrite Eo. by eexists. }
  assert (exists x2, preference_step o r (Num x1) = Num x2) as [x2 E2].
  { unfold preference_step, preferenceBoost. rewrite Ea.
    destruct (boost_preferences o); by eexists. }
  assert (exists x3, factor_step r (Num x2) = Num x3) as [x3 E3].
  { unfold factor_step.
    destruct (boost_factor (metadata_or_empty r)) as [[f|]|]; simpl in Hf;
      try done; [|by eexists].
    destruct (truthy (Num f) && strict_ne (Num f) (Num 1)); by eexists. }
  exists (Rmin x3 1). split; [|apply Rmin_r].
  unfold boost, adjustedSimilarity; simpl. by rewrite E1, E2, E3.
Qed.

(** *** A candidate without [created_at] *)

Lemma recency_step_missing_date (c : clock) (o : options) (r : result)
    (adjusted : num) :
  created_at r = None -> boost_recent o = true ->
  recency_step c o r adjusted = NaN.
Proof.
  intros Hr Ho. unfold recency_step, recencyBoost, daysSinceCreated, createdAt.
  rewrite Hr, Ho. simpl. apply add_NaN_r.
Qed.

Lemma boost_missing_date (c : clock) (o : options) (r : result) :
  created_at r = None -> boost_recent o = true ->
  similarity (boost c o r) = NaN.
Proof.
  intros Hr Ho. unfold boost, adjustedSimilarity; simpl.
  rewrite (recency_step_missing_date c o r _ Hr Ho).
  unfold preference_step, factor_step.
  destruct (boost_preferences o); simpl;
    destruct (boost_factor (metadata_or_empty r)) as [f|]; simpl;
    try reflexivity;
    destruct (truthy f && strict_ne f (Num 1)); reflexivity.
Qed.

(** C5, as the code has it. A candidate without [created_at] does not
    make the boosting pass fail when [boost_recent] is set: the pass returns
    as many records as it was given, and among them one for the candidate,
    with its fields and its raw similarity as [$original_similarity], but
    with the similarity [NaN]: the candidate is not scored as a stale
    entry. *)
Theorem missing_created_at_scores_NaN (c : clock) (o : options)
    (l : list result) (r : result) :
  created_at r = None ->
  boost_recent o = true ->
  r ∈ l ->
  length (applyBoosting c l o) = length l
  /\ exists r' : result,
       r' ∈ applyBoosting c l o
       /\ similarity r' = NaN
       /\ original_similarity r' = Some (similarity r)
       /\ metadata r' = metadata r
       /\ fields r' = fields r.
Proof.
  intros Hr Ho Hin. split; [apply applyBoosting_length|].
  exists (boost c o r). split.
  - rewrite applyBoosting_Permutation. by apply list_elem_of_fmap_2.
  - split; [by apply boost_missing_date|]. auto.
Qed.

Lemma missing_created_at_scores_NaN_witness :
  created_at (Sample.hit 0.9 None (Some (Sample.knobs 1 0.5 0.5))) = None
  /\ boost_recent Sample.recent_only = true
  /\ length (applyBoosting (Sample.clock_at Sample.new_year_ms)
               [Sample.hit 0.9 None (Some (Sample.knobs 1 0.5 0.5))]
               Sample.recent_only) = 1%nat.
Proof.
  split; [reflexivity|]. split; [reflexivity|].
  apply (missing_created_at_scores_NaN (Sample.clock_at Sample.new_year_ms)
           Sample.recent_only
           [Sample.hit 0.9 None (Some (Sample.knobs 1 0.5 0.5))]
           (Sample.hit 0.9 None (Some (Sample.knobs 1 0.5 0.5))));
    [reflexivity | reflexivity | apply list_elem_of_here].
Defined.

(** C5 as stated fails: the only candidate, of raw similarity 0.9 and
    without [created_at], comes back with the similarity [NaN], which is
    not a number. *)
Lemma missing_created_at_is_not_a_number :
  map similarity
    (applyBoosting (Sample.clock_at Sample.new_year_ms)
       [Sample.hit 0.9 None (Some (Sample.knobs 1 0.5 0.5))]
       Sample.recent_only)
  = [NaN]
  /\ ~ exists x : R,
         map similarity
           (applyBoosting (Sample.clock_at Sample.new_year_ms)
              [Sample.hit 0.9 None (Some (Sample.knobs 1 0.5 0.5))]
              Sample.recent_only)
         = [Num x].
Proof.
  assert (map similarity
            (applyBoosting (Sample.clock_at Sample.new_year_ms)
               [Sample.hit 0.9 None (Some (Sample.knobs 1 0.5 0.5))]
               Sample.recent_only)
          = [NaN]) as H.
  { unfold applyBoosting; simpl. f_equal.
    by apply boost_missing_date. }
  split; [exact H|]. rewrite H. intros [x Hx]. discriminate.
Qed.

(** *** The boost factor *)

Lemma factor_step_absent (r : result) (adjusted : num) :
  boost_factor (metadata_or_empty r) = None -> factor_step r adjusted = adjusted.
Proof. intros H. unfold factor_step. by rewrite H. Qed.

(** A factor that is a number other than 0 multiplies exactly when it
    differs from 1. *)
Lemma factor_step_nonzero (r : result) (f : R) (adjusted : num) :
  boost_factor (metadata_or_empty r) = Some (Num f) ->
  f <> 0 ->
  factor_step r adjusted
  = if Req_dec_T f 1 then adjusted else mul adjusted (Num f).
Proof.
  intros H Hf. unfold factor_step. rewrite H.
  replace (truthy (Num f)) with true by (symmetry; by apply truthy_Num).
  simpl. by destruct (Req_dec_T f 1).
Qed.

(** A factor of 0 is falsy: the multiplication is skipped. *)
Lemma factor_step_zero (r : result) (adjusted : num) :
  boost_factor (metadata_or_empty r) = Some (Num 0) ->
  factor_step r adjusted = adjusted.
Proof.
  intros H. unfold factor_step. rewrite H. unfold truthy.
  destruct (Req_dec_T 0 0); [reflexivity | contradiction].
Qed.

(** C6 on an entry with [boost_factor: 0]: with [boost_preferences] only,
    a raw similarity of 0.8 and an alignment of 0.5, the reported similarity
    is [0.8 + 0.5 * 0.1 = 0.85]; the factor 0 has not been applied. *)
Lemma boost_factor_zero_is_not_applied :
  similarity
    (boost (Sample.clock_at Sample.new_year_ms) Sample.preferences_only
       (Sample.hit 0.8 (Some Sample.new_year) (Some (Sample.knobs 0 0.5 0.5))))
  = Num 0.85
  /\ map similarity
       (applyBoosting (Sample.clock_at Sample.new_year_ms)
          [Sample.hit 0.8 (Some Sample.new_year) (Some (Sample.knobs 0 0.5 0.5))]
          Sample.preferences_only)
     = [Num 0.85].
Proof.
  assert (similarity
            (boost (Sample.clock_at Sample.new_year_ms) Sample.preferences_only
               (Sample.hit 0.8 (Some Sample.new_year)
                  (Some (Sample.knobs 0 0.5 0.5))))
          = Num 0.85) as H.
  { unfold boost, adjustedSimilarity. cbn [similarity].
    rewrite factor_step_zero by reflexivity.
    unfold preference_step, preferenceBoost, recency_step. simpl.
    destruct (Req_dec_T 0.5 0); simpl;
      f_equal; unfold Rmin; destruct (Rle_dec (0.8 + 0.5 * 0.1) 1); lra. }
  split; [exact H|].
  unfold applyBoosting; simpl. f_equal. exact H.
Qed.

End RankingFacts.

(** ** Validation *)

Module ValidationFacts.
Import Schema Validation.

(** *** The loops *)

Section Loops.
Context (check : schema -> list segment -> option value
                 -> list detail * option value).
Context (o : gmap string value) (p : list segment).

Lemma each_key_cons (k : string) (child : schema) (ks : list (string * schema)) :
  each_key check o p ((k, child) :: ks)
  = ((check child (p ++ [Key k]) (o !! k)).1 ++ (each_key check o p ks).1,
     match (check child (p ++ [Key k]) (o !! k)).2 with
     | Some w => <[k:=w]> (each_key check o p ks).2
     | None => (each_key check o p ks).2
     end).
Proof.
  simpl. destruct (check child (p ++ [Key k]) (o !! k)) as [e1 v1].
  by destruct (each_key check o p ks) as [e2 o2].
Qed.

Lemma each_key_errors (ks : list (string * schema)) (k : string)
    (child : schema) (d : detail) :
  In (k, child) ks ->
  d ∈ (check child (p ++ [Key k]) (o !! k)).1 ->
  d ∈ (each_key check o p ks).1.
Proof.
  induction ks as [|[k' c'] ks IH]; intros Hin Hd; [destruct Hin|].
  rewrite each_key_cons; simpl. apply elem_of_app.
  destruct Hin as [[= -> ->]|Hin]; [by left | right; by apply IH].
Qed.

Lemma each_key_clean (ks : list (string * schema)) (k : string)
    (child : schema) :
  (each_key check o p ks).1 = [] ->
  In (k, child) ks ->
  (check child (p ++ [Key k]) (o !! k)).1 = [].
Proof.
  induction ks as [|[k' c'] ks IH]; intros Hnil Hin; [destruct Hin|].
  rewrite each_key_cons in Hnil; simpl in Hnil.
  apply app_eq_nil in Hnil as [H1 H2].
  destruct Hin as [[= -> ->]|Hin]; [done | by apply IH].
Qed.

Lemma each_key_known (ks : list (string * schema)) (k : string) :
  is_Some ((each_key check o p ks).2 !! k) -> k ∈ ks.*1.
Proof.
  induction ks as [|[k' c'] ks IH]; intros Hk.
  - simpl in Hk. rewrite lookup_empty in Hk. by destruct Hk.
  - rewrite each_key_cons in Hk; simpl in Hk. simpl.
    destruct (decide (k = k')) as [->|Hne]; [by left|]. right.
    apply IH.
    destruct (check c' (p ++ [Key k']) (o !! k')).2; [|done].
    by rewrite lookup_insert_ne in Hk.
Qed.

Lemma each_key_lookup (ks : list (string * schema)) (k : string)
    (child : schema) :
  NoDup ks.*1 ->
  In (k, child) ks ->
  (each_key check o p ks).2 !! k = (check child (p ++ [Key k]) (o !! k)).2.
Proof.
  induction ks as [|[k' c'] ks IH]; intros Hnd Hin; [destruct Hin|].
  simpl in Hnd. apply NoDup_cons in Hnd as [Hk' Hnd].
  rewrite each_key_cons; simpl.
  destruct Hin as [[= -> ->]|Hin].
  - destruct (check child (p ++ [Key k]) (o !! k)).2 as [w|].
    + by rewrite lookup_insert_eq.
    + destruct ((each_key check o p ks).2 !! k) eqn:E; [|done].
      exfalso. apply Hk', each_key_known. by rewrite E.
  - assert (k ≠ k') as Hne.
    { intros ->. apply Hk'. apply list_elem_of_fmap.
      exists (k', child). split; [done|]. by apply list_elem_of_In. }
    destruct (check c' (p ++ [Key k']) (o !! k')).2.
    + rewrite lookup_insert_ne by done. by apply IH.
    + by apply IH.
Qed.

End Loops.

Section Items.
Context (check : list segment -> option value -> list detail * option value).
Context (p : list segment).

Lemma each_item_cons (y : value) (l : list value) (i : nat) :
  each_item check p (y :: l) i
  = ((check (p ++ [Index i]) (Some y)).1 ++ (each_item check p l (S i)).1.1,
     default y (check (p ++ [Index i]) (Some y)).2 :: (each_item check p l (S i)).1.2,
     match (check (p ++ [Index i]) (Some y)).1 with
     | [] => true
     | _ => (each_item check p l (S i)).2
     end).
Proof.
  simpl. destruct (check (p ++ [Index i]) (Some y)) as [e1 v1].
  by destruct (each_item check p l (S i)) as [[e2 l2] m2].
Qed.

Lemma each_item_length (l : list value) (i : nat) :
  length (each_item check p l i).1.2 = length l.
Proof.
  revert i. induction l as [|y l IH]; intros i; [done|].
  rewrite each_item_cons; simpl. by rewrite IH.
Qed.

(** When no item is reported, every item passed, and the result holds
    the converted items in order. *)
Lemma each_item_clean (l : list value) (i : nat) :
  (each_item check p l i).1.1 = [] ->
  Forall2 (fun y y' => exists j v,
             check (p ++ [Index j]) (Some y) = ([], v) /\ y' = default y v)
    l (each_item check p l i).1.2.
Proof.
  revert i. induction l as [|y l IH]; intros i Hnil; [constructor|].
  rewrite each_item_cons in Hnil |- *; simpl in *.
  apply app_eq_nil in Hnil as [H1 H2].
  constructor; [|by apply IH].
  exists i, (check (p ++ [Index i]) (Some y)).2. split; [|done].
  rewrite <- H1. by destruct (check (p ++ [Index i]) (Some y)).
Qed.

End Items.

(** *** The middleware *)

Lemma validate_inl (L : lib) (s : schema) (body : value) :
  (validate_at L s [] (Some body)).1 <> [] ->
  validate L s body
  = inl (map to_field_error (validate_at L s [] (Some body)).1).
Proof.
  intros H. unfold validate.
  destruct (validate_at L s [] (Some body)) as [[|d es] v]; simpl in *; done.
Qed.

Lemma validate_inr (L : lib) (s : schema) (body v : value) :
  validate L s body = inr v
  <-> (validate_at L s [] (Some body)).1 = []
      /\ v = default body (validate_at L s [] (Some body)).2.
Proof.
  unfold validate.
  destruct (validate_at L s [] (Some body)) as [[|d es] w]; simpl; split.
  - by intros [= <-].
  - by intros [_ ->].
  - done.
  - by intros [? _].
Qed.

Lemma validate_at_object (L : lib) (f : flags) (keys : list (string * schema))
    (p : list segment) (o : gmap string value) :
  validate_at L (JObject f keys) p (Some (VObj o))
  = ((each_key (validate_at L) o p keys).1,
     Some (VObj (each_key (validate_at L) o p keys).2)).
Proof. simpl. by destruct (each_key (validate_at L) o p keys). Qed.

(** A violation of the value under a key is a violation of the object. *)
Lemma object_reports (L : lib) (f : flags) (keys : list (string * schema))
    (p : list segment) (o : gmap string value) (k : string) (child : schema)
    (d : detail) :
  In (k, child) keys ->
  d ∈ (validate_at L child (p ++ [Key k]) (o !! k)).1 ->
  d ∈ (validate_at L (JObject f keys) p (Some (VObj o))).1.
Proof.
  intros Hin Hd. rewrite validate_at_object.
  exact (each_key_errors (validate_at L) o p keys k child d Hin Hd).
Qed.

(** A value that is not an object does not pass an object schema. *)
Lemma validate_at_object_inv (L : lib) (f : flags)
    (keys : list (string * schema)) (p : list segment) (x : value) :
  (validate_at L (JObject f keys) p (Some x)).1 = [] ->
  exists o, x = VObj o.
Proof. destruct x; simpl; try done. by eexists. Qed.

Lemma validate_at_array (L : lib) (f : flags) (it : schema)
    (rules : list array_rule) (p : list segment) (l : list value) :
  validate_at L (JArray f (Some it) rules) p (Some (VArr l))
  = ((each_item (validate_at L it) p l 0).1.1
       ++ (if match presence (flags_of it) with
              | required_ => negb (each_item (validate_at L it) p l 0).2
              | optional_ => false
              end
           then [error f p (array_includesRequiredUnknowns 1)
                   (Some (VArr (each_item (validate_at L it) p l 0).1.2))]
           else [])
       ++ flat_map (array_check f p (each_item (validate_at L it) p l 0).1.2)
            rules,
     Some (VArr (each_item (validate_at L it) p l 0).1.2)).
Proof.
  simpl. by destruct (each_item (validate_at L it) p l 0) as [[es l'] m].
Qed.

(** A length rule that the array does not meet is reported, with the
    converted array as the offending value. *)
Lemma array_wrong_length_reported (L : lib) (f : flags) (it : schema)
    (rules : list array_rule) (p : list segment) (l : list value) (limit : Z) :
  In (a_length limit) rules ->
  Z.of_nat (length l) <> limit ->
  error f p (array_length limit)
    (Some (VArr (each_item (validate_at L it) p l 0).1.2))
  ∈ (validate_at L (JArray f (Some it) rules) p (Some (VArr l))).1.
Proof.
  intros Hrule Hlen. rewrite validate_at_array. cbn [fst].
  apply elem_of_app. right. apply elem_of_app. right.
  apply list_elem_of_In, in_flat_map. exists (a_length limit).
  split; [done|]. unfold array_check. rewrite each_item_length.
  destruct (Z.eqb_spec (Z.of_nat (length l)) limit); [done | by left].
Qed.

(** An array that passes its item schema and its length rule has that
    length, and none of its items is reported. *)
Lemma array_clean (L : lib) (f : flags) (it : schema) (p : list segment)
    (l : list value) (limit : Z) :
  (validate_at L (JArray f (Some it) [a_length limit]) p (Some (VArr l))).1 = [] ->
  (each_item (validate_at L it) p l 0).1.1 = []
  /\ Z.of_nat (length l) = limit.
Proof.
  rewrite validate_at_array. cbn [fst]. intros H.
  apply app_eq_nil in H as [Hitems H]. apply app_eq_nil in H as [_ H].
  split; [done|]. cbn [flat_map] in H. unfold array_check in H.
  rewrite each_item_length in H.
  destruct (Z.eqb_spec (Z.of_nat (length l)) limit); [done | discriminate].
Qed.

Ltac solve_In := simpl; repeat (first [left; reflexivity | right]).

Lemma entry_keys_NoDup : NoDup entry_keys.*1.
Proof. apply (bool_decide_unpack _). by vm_compute. Qed.

(** *** The knobs of [search_metadata] *)

(** The check of a number, spelled out. *)
Lemma validate_at_number (L : lib) (f : flags) (rules : list number_rule)
    (p : list segment) (x : value) :
  validate_at L (JNumber f rules) p (Some x)
  = if imprecise L x
    then ([error f p number_unsafe (Some x)], Some (coerce_number L x))
    else
      match coerce_number L x with
      | VNum q =>
          if unsafe q
          then ([error f p number_unsafe (Some (VNum q))], Some (VNum q))
          else (flat_map (number_check f p q) rules, Some (VNum q))
      | x' => ([error f p number_base (Some x')], Some x')
      end.
Proof. reflexivity. Qed.

(** A knob below 0: outside the safe range it is refused as unsafe,
    inside it for the bound 0. *)
Lemma knob_below_zero (L : lib) (f : flags) (p : list segment) (x : value)
    (q : Q) :
  imprecise L x = false -> coerce_number L x = VNum q -> (q < 0)%Q ->
  validate_at L (JNumber f [n_min 0]) p (Some x)
  = ([error f p (if unsafe q then number_unsafe else number_min 0)
        (Some (VNum q))], Some (VNum q)).
Proof.
  intros Hi Hx Hq. rewrite validate_at_number, Hi, Hx.
  destruct (unsafe q); [done|]. simpl.
  destruct (Qle_bool (inject_Z 0) q) eqn:E; [|done].
  apply Qle_bool_iff in E. exfalso. apply (Qlt_not_le _ _ Hq). exact E.
Qed.

(** A knob that is not negative is refused only above the safe range. *)
Lemma knob_at_least_zero (L : lib) (f : flags) (p : list segment) (q : Q) :
  (0 <= q)%Q ->
  validate_at L (JNumber f [n_min 0]) p (Some (VNum q))
  = (if unsafe q then [error f p number_unsafe (Some (VNum q))] else [],
     Some (VNum q)).
Proof.
  intros Hq. rewrite validate_at_number. cbn [imprecise coerce_number].
  destruct (unsafe q); [done|]. simpl.
  replace (Qle_bool (inject_Z 0) q) with true; [done|].
  symmetry. by apply Qle_bool_iff.
Qed.

Lemma unsafe_at_least_zero (q : Q) :
  (0 <= q)%Q ->
  unsafe q = false <-> (q <= inject_Z MAX_SAFE_INTEGER)%Q.
Proof.
  intros Hq. unfold unsafe.
  assert (Qle_bool (inject_Z (- MAX_SAFE_INTEGER)) q = true) as ->.
  { apply Qle_bool_iff. eapply Qle_trans; [|exact Hq]. by vm_compute. }
  rewrite orb_false_r.
  destruct (Qle_bool q (inject_Z MAX_SAFE_INTEGER)) eqn:E; simpl.
  - apply Qle_bool_iff in E. by split.
  - split; [done|]. intros H. apply Qle_bool_iff in H. congruence.
Qed.

(** C7, as the code has it. On create and on replace alike, a
    [search_metadata] whose [boost_factor], [recency_weight] or
    [user_preference_alignment] is below 0 makes validation fail with a
    violation against that field: it states the bound 0 when the number is
    within the safe range, and that the number is not safe below it. Knobs
    that are not negative pass, however large within the safe range: no
    other upper bound is checked. *)
Theorem metadata_floor_is_checked (L : lib) (s : schema)
    (o m : gmap string value) (k : string) (x : value) (q : Q) :
  s = createSemanticSearchSchema \/ s = updateSemanticSearchSchema ->
  In k ["boost_factor"; "recency_weight"; "user_preference_alignment"] ->
  o !! "search_metadata" = Some (VObj m) ->
  m !! k = Some x ->
  imprecise L x = false ->
  coerce_number L x = VNum q ->
  (q < 0)%Q ->
  (exists (details : list field_error) (d : field_error),
      validate L s (VObj o) = inl details
      /\ d ∈ details
      /\ field d = "search_metadata." +:+ k
      /\ problem d
         = quote +:+ "search_metadata." +:+ k +:+ quote
             +:+ (if unsafe q then " must be a safe number"
                  else " must be greater than or equal to 0")
      /\ (unsafe q = false -> offending d = Some (VNum q)))
  /\ (forall factor weight alignment : Q,
        (0 <= factor)%Q -> (0 <= weight)%Q -> (0 <= alignment)%Q ->
        validate_at L search_metadata_schema [Key "search_metadata"]
          (Some (VObj (Sample.knob_values factor weight alignment)))
        = ([], Some (VObj (Sample.knob_values factor weight alignment)))
        <-> (factor <= inject_Z MAX_SAFE_INTEGER)%Q
            /\ (weight <= inject_Z MAX_SAFE_INTEGER)%Q
            /\ (alignment <= inject_Z MAX_SAFE_INTEGER)%Q).
Proof.
  intros Hs Hk Ho Hm Hi Hx Hq. split.
  - assert (s = JObject Joi.no_flags entry_keys) as -> by (by destruct Hs as [->| ->]).
    set (f := {| presence := required_; default_value := None; messages := [] |}).
    assert (error f [Key "search_metadata"; Key k]
              (if unsafe q then number_unsafe else number_min 0) (Some (VNum q))
            ∈ (validate_at L (JObject Joi.no_flags entry_keys) [] (Some (VObj o))).1)
      as Hd.
    { apply (object_reports _ _ _ _ _ "search_metadata" search_metadata_schema);
        [solve_In|].
      rewrite Ho.
      apply (object_reports _ _ _ _ _ k (JNumber f [n_min 0]));
        [destruct Hk as [<-|[<-|[<-|[]]]]; solve_In|].
      rewrite Hm. rewrite (knob_below_zero L f _ x q Hi Hx Hq).
      apply list_elem_of_here. }
    eexists _, _. split; [|split].
    + apply validate_inl. intros Hnil. rewrite Hnil in Hd. by apply elem_of_nil in Hd.
    + apply list_elem_of_fmap. eexists. split; [reflexivity | exact Hd].
    + destruct Hk as [<-|[<-|[<-|[]]]]; destruct (unsafe q); by repeat split.
  - intros factor weight alignment H1 H2 H3.
    rewrite <- (unsafe_at_least_zero factor H1),
      <- (unsafe_at_least_zero weight H2),
      <- (unsafe_at_least_zero alignment H3).
    unfold search_metadata_schema, Joi.object, Joi.optional, Joi.with_flags.
    rewrite validate_at_object.
    change (Joi.number |> Joi.min 0 |> Joi.required)
      with (JNumber {| presence := required_; default_value := None;
                       messages := [] |} [n_min 0]).
    rewrite !each_key_cons.
    change (Sample.knob_values factor weight alignment !! "boost_factor")
      with (Some (VNum factor)).
    change (Sample.knob_values factor weight alignment !! "recency_weight")
      with (Some (VNum weight)).
    change (Sample.knob_values factor weight alignment
              !! "user_preference_alignment")
      with (Some (VNum alignment)).
    rewrite !knob_at_least_zero by done.
    destruct (unsafe factor), (unsafe weight), (unsafe alignment); cbn;
      split; try done; by intros (? & ? & ?).
Qed.

Lemma metadata_floor_is_checked_witness :
  Sample.entry_body Sample.new_year Sample.new_year Sample.embedding_768
    (Sample.knob_values 1 (- 0.5) 0.7) !! "search_metadata"
  = Some (VObj (Sample.knob_values 1 (- 0.5) 0.7))
  /\ (- 0.5 < 0)%Q
  /\ exists (details : list field_error) (d : field_error),
       validate Sample.L createSemanticSearchSchema
         (VObj (Sample.entry_body Sample.new_year Sample.new_year
                  Sample.embedding_768 (Sample.knob_values 1 (- 0.5) 0.7)))
       = inl details
       /\ d ∈ details
       /\ field d = "search_metadata.recency_weight"
       /\ problem d
          = quote +:+ "search_metadata.recency_weight" +:+ quote
              +:+ " must be greater than or equal to 0"
       /\ (unsafe (- 0.5) = false -> offending d = Some (VNum (- 0.5))).
Proof.
  split; [reflexivity|]. split; [reflexivity|].
  apply (metadata_floor_is_checked Sample.L createSemanticSearchSchema
           (Sample.entry_body Sample.new_year Sample.new_year
              Sample.embedding_768 (Sample.knob_values 1 (- 0.5) 0.7))
           (Sample.knob_values 1 (- 0.5) 0.7)
           "recency_weight" (VNum (- 0.5)) (- 0.5)%Q).
  - left; reflexivity.
  - right; left; reflexivity.
  - reflexivity.
  - reflexivity.
  - reflexivity.
  - reflexivity.
  - reflexivity.
Defined.

(** C7 as stated fails: a create body (and the same body on replace) with
    [boost_factor: 15] and [recency_weight: 2] passes validation
    unchanged. *)
Lemma knobs_above_the_range_are_accepted :
  validate Sample.L createSemanticSearchSchema
    (VObj (Sample.entry_body Sample.new_year Sample.new_year
             Sample.embedding_768 (Sample.knob_values 15 2 0.5)))
  = inr (VObj (Sample.entry_body Sample.new_year Sample.new_year
                 Sample.embedding_768 (Sample.knob_values 15 2 0.5)))
  /\ validate Sample.L updateSemanticSearchSchema
       (VObj (Sample.entry_body Sample.new_year Sample.new_year
                Sample.embedding_768 (Sample.knob_values 15 2 0.5)))
     = inr (VObj (Sample.entry_body Sample.new_year Sample.new_year
                    Sample.embedding_768 (Sample.knob_values 15 2 0.5))).
Proof. split; vm_compute; reflexivity. Qed.

(** *** The embedding *)

Lemma primary_embedding_key :
  In ("primary_embedding",
      JArray Joi.required_flags (Some (JNumber Joi.required_flags [])) [a_length 768])
    entry_keys.
Proof. solve_In. Qed.

(** An item that passes the item schema is a number, or a string that
    converts to one. *)
Lemma number_item_clean (L : lib) (f : flags) (p : list segment) (y : value)
    (v : option value) :
  validate_at L (JNumber f []) p (Some y) = ([], v) ->
  exists q, coerce_number L y = VNum q /\ v = Some (VNum q).
Proof.
  rewrite validate_at_number. destruct (imprecise L y); [discriminate|].
  destruct (coerce_number L y) as [|b|q|str|l|o]; try discriminate.
  destruct (unsafe q); [discriminate|]. intros [= <-]. by exists q.
Qed.

(** C8, as the code has it. On create and on replace alike, a
    [primary_embedding] that is an array of a length other than 768 makes
    validation fail with a violation against [primary_embedding] whose
    message names 768; and a body is accepted only when its
    [primary_embedding] is an array of exactly 768 items, each a number or a
    string that converts to one, which the accepted value carries item for
    item: nothing is truncated or padded. *)
Theorem embedding_length_is_checked (L : lib) (s : schema) :
  s = createSemanticSearchSchema \/ s = updateSemanticSearchSchema ->
  (forall (o : gmap string value) (l : list value),
      o !! "primary_embedding" = Some (VArr l) ->
      length l <> 768%nat ->
      exists (details : list field_error) (d : field_error),
        validate L s (VObj o) = inl details
        /\ d ∈ details
        /\ field d = "primary_embedding"
        /\ problem d = quote +:+ "primary_embedding" +:+ quote
                         +:+ " must contain 768 items"
        /\ names_768 d = true)
  /\ (forall body v : value,
        validate L s body = inr v ->
        exists (o o' : gmap string value) (l l' : list value),
          body = VObj o /\ v = VObj o'
          /\ o !! "primary_embedding" = Some (VArr l)
          /\ o' !! "primary_embedding" = Some (VArr l')
          /\ length l = 768%nat
          /\ Forall2 (fun y y' => exists q : Q,
                        coerce_number L y = VNum q /\ y' = VNum q) l l').
Proof.
  intros Hs.
  assert (s = JObject Joi.no_flags entry_keys) as -> by (by destruct Hs as [->| ->]).
  clear Hs. split.
  - intros o l Ho Hlen.
    assert (error Joi.required_flags [Key "primary_embedding"] (array_length 768)
              (Some (VArr (each_item
                             (validate_at L (JNumber Joi.required_flags []))
                             [Key "primary_embedding"] l 0).1.2))
            ∈ (validate_at L (JObject Joi.no_flags entry_keys) []
                 (Some (VObj o))).1) as Hd.
    { apply (object_reports _ _ _ _ _ _ _ _ primary_embedding_key).
      rewrite Ho. apply array_wrong_length_reported; [by left | lia]. }
    eexists. eexists. split; [|split; [|split; [|split]]].
    + apply validate_inl. intros Hnil. rewrite Hnil in Hd.
      by apply elem_of_nil in Hd.
    + apply list_elem_of_fmap. eexists. split; [reflexivity | exact Hd].
    + reflexivity.
    + reflexivity.
    + by vm_compute.
  - intros body v Hv. apply validate_inr in Hv as [Hnil ->].
    destruct (validate_at_object_inv _ _ _ _ _ Hnil) as [o ->].
    rewrite validate_at_object in Hnil |- *. cbn [fst snd default] in *.
    pose proof (each_key_clean _ _ _ _ _ _ Hnil primary_embedding_key) as Hpe.
    pose proof (each_key_lookup (validate_at L) o [] _ _ _ entry_keys_NoDup
                  primary_embedding_key) as Hout.
    destruct (o !! "primary_embedding") as [x|] eqn:Ho; [|discriminate].
    destruct x as [|b|q|str|l|m]; try discriminate.
    apply array_clean in Hpe as [Hitems Hlen].
    rewrite validate_at_array in Hout. cbn [snd] in Hout.
    exists o, (each_key (validate_at L) o [] entry_keys).2, l,
      (each_item (validate_at L (JNumber Joi.required_flags []))
         ([] ++ [Key "primary_embedding"]) l 0).1.2.
    split; [done|]. split; [done|]. split; [done|]. split; [exact Hout|].
    split.
    + lia.
    + eapply Forall2_impl; [apply each_item_clean; exact Hitems|].
      intros y y' (j & w & Hw & ->).
      apply number_item_clean in Hw as (q & Hq & ->). by exists q.
Qed.

Lemma embedding_length_is_checked_witness :
  exists (details : list field_error) (d : field_error),
    validate Sample.L createSemanticSearchSchema
      (VObj (Sample.entry_body Sample.new_year Sample.new_year
               (VArr [VNum 1; VNum 2; VNum 3]) (Sample.knob_values 1 0.5 0.7)))
    = inl details
    /\ d ∈ details
    /\ names_768 d = true.
Proof.
  destruct (embedding_length_is_checked Sample.L createSemanticSearchSchema
              (or_introl eq_refl)) as [Hwrong _].
  destruct (Hwrong
              (Sample.entry_body Sample.new_year Sample.new_year
                 (VArr [VNum 1; VNum 2; VNum 3]) (Sample.knob_values 1 0.5 0.7))
              [VNum 1; VNum 2; VNum 3] eq_refl)
    as (details & d & H1 & H2 & _ & _ & H3).
  - discriminate.
  - exists details, d. auto.
Defined.

(** C8 as stated fails: an embedding of 768 items of which item 5 is the
    string [x] is not a sequence of numbers; the only violation is reported
    against [primary_embedding.5], and no violation names 768. *)
Lemma a_string_among_768_items_is_reported_without_768 :
  validate Sample.L createSemanticSearchSchema
    (VObj (Sample.entry_body Sample.new_year Sample.new_year
             Sample.embedding_with_a_string (Sample.knob_values 1 0.5 0.7)))
  = inl [{| field := "primary_embedding.5";
            problem := quote +:+ "primary_embedding[5]" +:+ quote
                         +:+ " must be a number";
            offending := Some (VStr "x") |}]
  /\ existsb names_768
       [{| field := "primary_embedding.5";
           problem := quote +:+ "primary_embedding[5]" +:+ quote
                        +:+ " must be a number";
           offending := Some (VStr "x") |}]
     = false.
Proof. split; vm_compute; reflexivity. Qed.

(** The search query names the length in words of its own: the fragment
    [primaryEmbedding] overrides the message. *)
Example short_query_embedding :
  validate Sample.L searchQuerySchema
    (VObj {["embedding" := VArr [VNum 1; VNum 2; VNum 3]]})
  = inl [{| field := "embedding";
            problem := "Primary embedding must have exactly 768 dimensions";
            offending := Some (VArr [VNum 1; VNum 2; VNum 3]) |}].
Proof. vm_compute; reflexivity. Qed.

End ValidationFacts.

(** ** The stored entries *)

Module ServiceFacts.
Import Schema Validation Service Routes ValidationFacts.

Lemma created_at_key : In ("created_at", JString Joi.required_flags []) entry_keys.
Proof. solve_In. Qed.

Lemma updated_at_key : In ("updated_at", JString Joi.required_flags []) entry_keys.
Proof. solve_In. Qed.

(** A mandatory string that passes is there, and is kept as it is. *)
Lemma required_string_clean (L : lib) (rules : list string_rule)
    (p : list segment) (ov : option value) :
  (validate_at L (JString Joi.required_flags rules) p ov).1 = [] ->
  exists str, ov = Some (VStr str)
              /\ (validate_at L (JString Joi.required_flags rules) p ov).2
                 = Some (VStr str).
Proof.
  destruct ov as [x|]; simpl; [|discriminate].
  destruct x as [|b|q|str|l|o]; try discriminate.
  destruct (String.eqb str ""); [discriminate|]. eauto.
Qed.

(** What an accepted entry body looks like: an object, whose accepted
    form has no [_id] (it is not a key of the schema) and the two timestamps
    of the body, which are strings. *)
Lemma accepted_entry (L : lib) (body v : value) :
  validate L (JObject Joi.no_flags entry_keys) body = inr v ->
  exists (o o' : gmap string value) (c u : string),
    body = VObj o /\ v = VObj o'
    /\ o' !! "_id" = None
    /\ o !! "created_at" = Some (VStr c) /\ o' !! "created_at" = Some (VStr c)
    /\ o !! "updated_at" = Some (VStr u) /\ o' !! "updated_at" = Some (VStr u).
Proof.
  intros Hv. apply validate_inr in Hv as [Hnil ->].
  destruct (validate_at_object_inv _ _ _ _ _ Hnil) as [o ->].
  rewrite validate_at_object in Hnil |- *. cbn [fst snd default] in *.
  destruct (required_string_clean L [] _ _
              (each_key_clean _ _ _ _ _ _ Hnil created_at_key))
    as (c & Hc & Hc').
  destruct (required_string_clean L [] _ _
              (each_key_clean _ _ _ _ _ _ Hnil updated_at_key))
    as (u & Hu & Hu').
  exists o, (each_key (validate_at L) o [] entry_keys).2, c, u.
  split; [done|]. split; [done|]. split; [|split; [done|split; [|split; [done|]]]].
  - destruct ((each_key (validate_at L) o [] entry_keys).2 !! "_id") eqn:E;
      [|done].
    assert ("_id" ∈ entry_keys.*1) as Hin
      by (apply (each_key_known (validate_at L) o []); by rewrite E).
    exfalso. revert Hin. apply (bool_decide_unpack _). by vm_compute.
  - rewrite (each_key_lookup _ _ _ _ _ _ entry_keys_NoDup created_at_key).
    exact Hc'.
  - rewrite (each_key_lookup _ _ _ _ _ _ entry_keys_NoDup updated_at_key).
    exact Hu'.
Qed.

(** The replacement built from a payload without [_id]. *)
Lemma replacementEntry_id (id : string) (o' existing : gmap string value) :
  o' !! "_id" = None ->
  replacementEntry id o' existing !! "_id" = Some (VStr id).
Proof.
  intros Hid. unfold replacementEntry, set_property.
  destruct (existing !! "created_at").
  - rewrite lookup_insert_ne by done.
    by rewrite lookup_union_r, lookup_singleton_eq.
  - rewrite lookup_delete_ne by done.
    by rewrite lookup_union_r, lookup_singleton_eq.
Qed.

Lemma replacementEntry_created_at (id : string) (o' existing : gmap string value) :
  replacementEntry id o' existing !! "created_at" = existing !! "created_at".
Proof.
  unfold replacementEntry, set_property. destruct (existing !! "created_at").
  - by rewrite lookup_insert_eq.
  - by rewrite lookup_delete_eq.
Qed.

Lemma replacementEntry_other (id : string) (o' existing : gmap string value)
    (k : string) :
  k <> "_id" -> k <> "created_at" ->
  replacementEntry id o' existing !! k = o' !! k.
Proof.
  intros Hk1 Hk2. unfold replacementEntry, set_property.
  assert ((o' ∪ {["_id" := VStr id]}) !! k = o' !! k) as Hk.
  { rewrite lookup_union, lookup_singleton_ne by done. by destruct (o' !! k). }
  destruct (existing !! "created_at").
  - by rewrite lookup_insert_ne.
  - by rewrite lookup_delete_ne.
Qed.

(** [updateEntry] on a payload without [_id]. *)
Lemma updateEntry_replaces (id : string) (o' existing : gmap string value)
    (coll : gmap string (gmap string value)) :
  coll !! id = Some existing ->
  o' !! "_id" = None ->
  updateEntry id o' coll
  = (<[id:=replacementEntry id o' existing]> coll,
     Success (VObj (replacementEntry id o' existing))).
Proof.
  intros Hcoll Hid. unfold updateEntry, findOne, replaceOne. rewrite Hcoll.
  rewrite (replacementEntry_id id o' existing Hid).
  rewrite String.eqb_refl. simpl. by rewrite lookup_insert_eq.
Qed.

(** [createEntry] on a payload without [_id], under a fresh identifier. *)
Lemma createEntry_inserts (uuid : string) (o' : gmap string value)
    (coll : gmap string (gmap string value)) :
  coll !! uuid = None ->
  o' !! "_id" = None ->
  createEntry uuid o' coll
  = (<[uuid:=o' ∪ {["_id" := VStr uuid]}]> coll,
     Success (VObj ((o' ∪ {["_id" := VStr uuid]}) ∪ {["id" := VStr uuid]}))).
Proof.
  intros Hcoll Hid. unfold createEntry, insertOne.
  rewrite lookup_union_r, lookup_singleton_eq by done. rewrite Hcoll.
  by rewrite <- insert_empty.
Qed.

(** C2. Replacing an existing entry by a payload that passed validation
    succeeds, and the stored record has the identity and the [created_at]
    of the entry it replaces, whatever the request gave for them; every
    other field is the one of the validated payload. *)
Theorem updateEntry_keeps_identity_and_creation (L : lib) (id : string)
    (body canonical : value) (existing : gmap string value)
    (coll : gmap string (gmap string value)) :
  coll !! id = Some existing ->
  existing !! "_id" = Some (VStr id) ->
  validate L updateSemanticSearchSchema body = inr canonical ->
  exists stored : gmap string value,
    updateEntry id (properties canonical) coll
    = (<[id:=stored]> coll, Success (VObj stored))
    /\ stored !! "_id" = existing !! "_id"
    /\ stored !! "created_at" = existing !! "created_at"
    /\ forall k : string,
         k <> "_id" -> k <> "created_at" ->
         stored !! k = properties canonical !! k.
Proof.
  intros Hcoll Hex Hv.
  destruct (accepted_entry L body canonical Hv)
    as (o & o' & c & u & -> & -> & Hid & _).
  exists (replacementEntry id o' existing).
  split; [by apply updateEntry_replaces|]. cbn [properties].
  split; [|split].
  - rewrite Hex. by apply replacementEntry_id.
  - apply replacementEntry_created_at.
  - intros k Hk1 Hk2. by apply replacementEntry_other.
Qed.

Lemma updateEntry_keeps_identity_and_creation_witness :
  validate Sample.L updateSemanticSearchSchema (VObj Sample.tampered_body)
  = inr (VObj Sample.replacement_body)
  /\ exists stored : gmap string value,
       updateEntry Sample.an_id Sample.replacement_body
         {[Sample.an_id := Sample.stored_entry]}
       = (<[Sample.an_id:=stored]> {[Sample.an_id := Sample.stored_entry]},
          Success (VObj stored))
       /\ stored !! "_id" = Some (VStr Sample.an_id)
       /\ stored !! "created_at" = Some (VStr "2023-06-01T08:00:00.000Z").
Proof.
  split; [vm_compute; reflexivity|].
  destruct (updateEntry_keeps_identity_and_creation Sample.L Sample.an_id
              (VObj Sample.tampered_body) (VObj Sample.replacement_body)
              Sample.stored_entry {[Sample.an_id := Sample.stored_entry]})
    as (stored & H1 & H2 & H3 & _).
  - apply lookup_singleton_eq.
  - reflexivity.
  - vm_compute; reflexivity.
  - exists stored. split; [exact H1|]. split; [exact H2 | exact H3].
Defined.

(** The validation step matters: in the replacement built from the
    request as it was sent, the [_id] of the request hides the one of the
    route. *)
Example replacementEntry_of_a_tampered_body :
  replacementEntry Sample.an_id Sample.tampered_body Sample.stored_entry !! "_id"
  = Some (VStr Sample.a_user).
Proof. vm_compute; reflexivity. Qed.

(** The identifier of the route passes [paramsIdSchema] unchanged. *)
Lemma params_id (L : lib) (id : string) (params : value) :
  validate L paramsIdSchema (VObj {["id" := VStr id]}) = inr params ->
  properties params !! "id" = Some (VStr id).
Proof.
  intros Hv. apply validate_inr in Hv as [_ ->].
  unfold paramsIdSchema, Joi.object. rewrite validate_at_object.
  cbn [snd default properties]. rewrite each_key_cons. cbn [snd].
  rewrite lookup_singleton_eq.
  assert ((validate_at L (Joi.string_ |> Joi.uuid |> Joi.required)
             ([] ++ [Key "id"]) (Some (VStr id))).2 = Some (VStr id)) as ->.
  { simpl. by destruct (String.eqb id ""). }
  apply lookup_insert_eq.
Qed.

(** C9, as the code has it. A create that passes validation stores the
    [created_at] and the [updated_at] of the request as they were sent; a
    replacement that passes validation stores the [created_at] of the entry
    it replaces and the [updated_at] of the request. Both are strings that
    the client chose, and nothing compares them. *)
Theorem timestamps_are_stored_as_sent (L : lib) (body canonical : value)
    (coll : gmap string (gmap string value)) :
  (forall uuid : string,
      validate L createSemanticSearchSchema body = inr canonical ->
      coll !! uuid = None ->
      exists (stored : gmap string value) (c u : string),
        post_entries L uuid body coll
        = (<[uuid:=stored]> coll, Created (VObj (stored ∪ {["id" := VStr uuid]})))
        /\ properties body !! "created_at" = Some (VStr c)
        /\ properties body !! "updated_at" = Some (VStr u)
        /\ stored !! "created_at" = Some (VStr c)
        /\ stored !! "updated_at" = Some (VStr u))
  /\ (forall (id : string) (params : value) (existing : gmap string value),
        validate L paramsIdSchema (VObj {["id" := VStr id]}) = inr params ->
        validate L updateSemanticSearchSchema body = inr canonical ->
        coll !! id = Some existing ->
        exists (stored : gmap string value) (u : string),
          put_entries L id body coll = (<[id:=stored]> coll, OK (VObj stored))
          /\ stored !! "created_at" = existing !! "created_at"
          /\ properties body !! "updated_at" = Some (VStr u)
          /\ stored !! "updated_at" = Some (VStr u)).
Proof.
  split.
  - intros uuid Hv Hfresh.
    destruct (accepted_entry L body canonical Hv)
      as (o & o' & c & u & -> & -> & Hid & Hc & Hc' & Hu & Hu').
    exists (o' ∪ {["_id" := VStr uuid]}), c, u.
    split; [|split; [done|split; [done|split]]].
    + unfold post_entries. rewrite Hv. cbn [properties].
      by rewrite createEntry_inserts.
    + by apply lookup_union_Some_l.
    + by apply lookup_union_Some_l.
  - intros id params existing Hp Hv Hcoll.
    destruct (accepted_entry L body canonical Hv)
      as (o & o' & c & u & -> & -> & Hid & Hc & Hc' & Hu & Hu').
    exists (replacementEntry id o' existing), u.
    split; [|split; [|split; [done|]]].
    + unfold put_entries. rewrite Hp, Hv, (params_id L id params Hp).
      cbn [properties]. by rewrite (updateEntry_replaces id o' existing).
    + apply replacementEntry_created_at.
    + by rewrite replacementEntry_other.
Qed.

Lemma timestamps_are_stored_as_sent_witness :
  validate Sample.L createSemanticSearchSchema (VObj Sample.backdated_body)
  = inr (VObj Sample.backdated_body)
  /\ exists (stored : gmap string value) (c u : string),
       post_entries Sample.L Sample.an_id (VObj Sample.backdated_body) ∅
       = (<[Sample.an_id:=stored]> ∅,
          Created (VObj (stored ∪ {["id" := VStr Sample.an_id]})))
       /\ stored !! "created_at" = Some (VStr c)
       /\ stored !! "updated_at" = Some (VStr u).
Proof.
  split; [vm_compute; reflexivity|].
  destruct (timestamps_are_stored_as_sent Sample.L (VObj Sample.backdated_body)
              (VObj Sample.backdated_body) ∅) as [Hcreate _].
  destruct (Hcreate Sample.an_id) as (stored & c & u & H1 & _ & _ & H2 & H3).
  - vm_compute; reflexivity.
  - apply lookup_empty.
  - exists stored, c, u. split; [exact H1|]. split; [exact H2 | exact H3].
Defined.

(** C9 as stated fails: a create whose [updated_at] is one day before
    its [created_at] passes validation and is stored as sent. *)
Lemma create_accepts_an_update_before_the_creation :
  exists stored : gmap string value,
    post_entries Sample.L Sample.an_id (VObj Sample.backdated_body) ∅
    = (<[Sample.an_id:=stored]> ∅,
       Created (VObj (stored ∪ {["id" := VStr Sample.an_id]})))
    /\ stored !! "created_at" = Some (VStr "2024-01-02T00:00:00.000Z")
    /\ stored !! "updated_at" = Some (VStr "2024-01-01T00:00:00.000Z")
    /\ ~ Claimed.created_before_updated Sample.Date_parse stored.
Proof.
  assert (validate Sample.L createSemanticSearchSchema
            (VObj Sample.backdated_body) = inr (VObj Sample.backdated_body))
    as Hv by (vm_compute; reflexivity).
  exists (Sample.backdated_body ∪ {["_id" := VStr Sample.an_id]}).
  assert ((Sample.backdated_body ∪ {["_id" := VStr Sample.an_id]})
            !! "created_at" = Some (VStr "2024-01-02T00:00:00.000Z")) as Hc
    by (vm_compute; reflexivity).
  assert ((Sample.backdated_body ∪ {["_id" := VStr Sample.an_id]})
            !! "updated_at" = Some (VStr "2024-01-01T00:00:00.000Z")) as Hu
    by (vm_compute; reflexivity).
  split; [|split; [exact Hc | split; [exact Hu|]]].
  - unfold post_entries. rewrite Hv. cbn [properties].
    rewrite createEntry_inserts; [done | apply lookup_empty |].
    vm_compute; reflexivity.
  - unfold Claimed.created_before_updated. rewrite Hc, Hu.
    rewrite RankingFacts.Date_parse_next_day.
    change "2024-01-01T00:00:00.000Z" with Sample.new_year.
    rewrite RankingFacts.Date_parse_new_year.
    intros H. apply le_IZR in H. vm_compute in H. by apply H.
Qed.

End ServiceFacts.

(** ** More on the ranking engine *)

Module RankingExtras.
Import JS Ranking JSFacts RankingFacts.

Local Open Scope R_scope.


Lemma Sorted_with {A : Type} (R : A -> A -> Prop) (P : A -> Prop)
    (l : list A) :
  Sorted R l -> Forall P l -> Sorted (fun a b => R a b /\ P a /\ P b) l.
Proof.
  induction 1 as [|x l Hl IH Hhd]; intros HP; constructor.
  - apply IH. by apply Forall_inv_tail in HP.
  - destruct Hhd as [|y l' Hxy]; constructor.
    split; [done|]. split; [by apply Forall_inv in HP|].
    apply Forall_inv_tail in HP. by apply Forall_inv in HP.
Qed.

(** X1. When every boosted score is a number, the result of the boosting
    pass is in descending order: each record has a similarity that is at
    most the one of the record before it. *)
Theorem applyBoosting_descending_scores (c : clock) (l : list result)
    (o : options) :
  Forall (fun r => exists y : R, similarity (boost c o r) = Num y) l ->
  Sorted (fun a b => exists x y : R,
            similarity a = Num x /\ similarity b = Num y /\ y <= x)
    (applyBoosting c l o).
Proof.
  intros Hnum.
  assert (Forall (fun r => exists y : R, similarity r = Num y)
            (applyBoosting c l o)) as Hall.
  { rewrite applyBoosting_Permutation. by apply Forall_map. }
  eapply Sorted_weaken;
    [|exact (Sorted_with _ _ _ (applyBoosting_descending c l o) Hall)].
  intros a b (Hab & [x Hx] & [y Hy]). exists x, y.
  split; [done|]. split; [done|].
  rewrite Hx, Hy in Hab. simpl in Hab. lra.
Qed.

Lemma applyBoosting_descending_scores_witness :
  Sorted (fun a b => exists x y : R,
            similarity a = Num x /\ similarity b = Num y /\ y <= x)
    (applyBoosting (Sample.clock_at Sample.new_year_ms)
       [Sample.hit 0.8 None None; Sample.hit 0.9 None None] Sample.no_boost).
Proof.
  apply (applyBoosting_descending_scores (Sample.clock_at Sample.new_year_ms)
           [Sample.hit 0.8 None None; Sample.hit 0.9 None None]
           Sample.no_boost).
  repeat constructor; simpl; eexists; reflexivity.
Defined.





(** X3. With a boost flag set, the threshold is enforced on the raw
    score: every record of the result reports an original similarity, and
    it is at least the threshold, whatever the boosted similarity is. *)
Theorem rank_threshold_on_raw_score (c : clock) (candidates : list result)
    (threshold : num) (o : options) :
  boost_recent o || boost_preferences o = true ->
  Forall (fun r => exists x, original_similarity r = Some x
                             /\ at_least x threshold)
    (results (rank c candidates threshold o)).
Proof.
  intros Ho. unfold rank; simpl. rewrite Ho, applyBoosting_Permutation.
  apply Forall_map, Forall_forall. intros r Hr.
  unfold filteredResults in Hr.
  apply list_elem_of_filter in Hr as [Hge _].
  exists (similarity r). split; [done|]. by apply ge_at_least.
Qed.

Lemma rank_threshold_on_raw_score_witness :
  boost_recent Sample.preferences_only || boost_preferences Sample.preferences_only
  = true
  /\ Forall (fun r => exists x, original_similarity r = Some x
                                /\ at_least x (Num 0.7))
       (results (rank (Sample.clock_at Sample.new_year_ms)
                   [Sample.hit 0.9 None None; Sample.hit 0.6 None None]
                   (Num 0.7) Sample.preferences_only)).
Proof.
  split; [reflexivity|].
  apply (rank_threshold_on_raw_score (Sample.clock_at Sample.new_year_ms)
           [Sample.hit 0.9 None None; Sample.hit 0.6 None None]
           (Num 0.7) Sample.preferences_only).
  reflexivity.
Defined.

(** The adjusted similarity in closed form, for knobs that are absent or
    not negative: the weight, the alignment and the multiplier that the
    code uses are all positive. *)
Lemma adjusted_closed_form (md : search_metadata) :
  nonneg_knob (boost_factor md) ->
  nonneg_knob (recency_weight md) ->
  nonneg_knob (user_preference_alignment md) ->
  exists w a m : R,
    0 < w /\ 0 < a /\ 0 < m
    /\ (boost_factor md = None \/ boost_factor md = Some (Num 0)
        \/ (exists f, boost_factor md = Some (Num f) /\ 1 <= f) -> 1 <= m)
    /\ forall (c : clock) (o : options) (r : result) (x t : R),
         metadata_or_empty r = md ->
         similarity r = Num x ->
         createdAt c r = Num t ->
         adjustedSimilarity c o r
         = Num ((x + (if boost_recent o
                      then exp (- 0.1 * ((now c - t) / 86400000)) * w * 0.1
                      else 0)
                   + (if boost_preferences o then a * 0.1 else 0)) * m).
Proof.
  intros Hf Hw Ha.
  assert (exists w, 0 < w /\ or_default (recency_weight md) (Num 0.5) = Num w)
    as (w & Hw0 & Ew).
  { destruct (recency_weight md) as [[w|]|]; simpl in *; try done.
    - destruct (Req_dec_T w 0); [exists 0.5 | exists w]; split; auto; lra.
    - exists 0.5. split; [lra | done]. }
  assert (exists a, 0 < a
                    /\ or_default (user_preference_alignment md) (Num 0.5) = Num a)
    as (a & Ha0 & Ea).
  { destruct (user_preference_alignment md) as [[a|]|]; simpl in *; try done.
    - destruct (Req_dec_T a 0); [exists 0.5 | exists a]; split; auto; lra.
    - exists 0.5. split; [lra | done]. }
  assert (exists m, 0 < m
            /\ (boost_factor md = None \/ boost_factor md = Some (Num 0)
                \/ (exists f, boost_factor md = Some (Num f) /\ 1 <= f) -> 1 <= m)
            /\ forall r y, metadata_or_empty r = md ->
                           factor_step r (Num y) = Num (y * m))
    as (m & Hm0 & Hm1 & Em).
  { destruct (boost_factor md) as [[f|]|] eqn:E; simpl in Hf; try done.
    - destruct (Req_dec_T f 0) as [->|Hne].
      + exists 1. split; [lra|]. split; [lra|]. intros r y Hr.
        rewrite factor_step_zero by (by rewrite Hr). f_equal; lra.
      + exists f. split; [lra|]. split.
        * intros [H|[H|(f' & H & Hf')]]; try discriminate.
          -- injection H as H. contradiction.
          -- injection H as <-. done.
        * intros r y Hr.
          rewrite (factor_step_nonzero r f) by (by rewrite ?Hr).
          destruct (Req_dec_T f 1) as [->|_]; simpl; f_equal; lra.
    - exists 1. split; [lra|]. split; [lra|]. intros r y Hr.
      rewrite factor_step_absent by (by rewrite Hr). f_equal; lra. }
  exists w, a, m. split; [done|]. split; [done|]. split; [done|].
  split; [done|]. intros c o r x t Hr Hx Ht.
  unfold adjustedSimilarity. rewrite Hx.
  assert (recency_step c o r (Num x)
          = Num (x + (if boost_recent o
                      then exp (- 0.1 * ((now c - t) / 86400000)) * w * 0.1
                      else 0))) as ->.
  { destruct (boost_recent o) eqn:Eo.
    - apply recency_step_value; auto. by rewrite Hr.
    - unfold recency_step. rewrite Eo. f_equal; lra. }
  assert (forall y, preference_step o r (Num y)
                    = Num (y + (if boost_preferences o then a * 0.1 else 0)))
    as ->.
  { intros y. unfold preference_step, preferenceBoost. rewrite Hr, Ea.
    destruct (boost_preferences o); simpl; f_equal; lra. }
  by apply Em.
Qed.

(** X4. Of two candidates with the same raw similarity and the same
    knobs, the one created later never gets the lower score, whatever the
    flags. *)
Theorem newer_entry_scores_no_lower (c : clock) (o : options)
    (r1 r2 : result) (x t1 t2 : R) :
  similarity r1 = Num x -> similarity r2 = Num x ->
  metadata r1 = metadata r2 ->
  createdAt c r1 = Num t1 -> createdAt c r2 = Num t2 ->
  t1 <= t2 ->
  nonneg_knob (boost_factor (metadata_or_empty r1)) ->
  nonneg_knob (recency_weight (metadata_or_empty r1)) ->
  nonneg_knob (user_preference_alignment (metadata_or_empty r1)) ->
  exists y1 y2 : R,
    similarity (boost c o r1) = Num y1
    /\ similarity (boost c o r2) = Num y2
    /\ y1 <= y2.
Proof.
  intros Hx1 Hx2 Hmd Ht1 Ht2 Ht Hf Hw Ha.
  destruct (adjusted_closed_form _ Hf Hw Ha)
    as (w & a & m & Hw0 & Ha0 & Hm0 & _ & Hadj).
  assert (metadata_or_empty r2 = metadata_or_empty r1) as Hmd2
    by (unfold metadata_or_empty; by rewrite Hmd).
  pose proof (Hadj c o r1 x t1 eq_refl Hx1 Ht1) as E1.
  pose proof (Hadj c o r2 x t2 Hmd2 Hx2 Ht2) as E2.
  unfold boost; simpl. rewrite E1, E2. simpl.
  eexists. eexists. split; [reflexivity|]. split; [reflexivity|].
  assert (exp (- 0.1 * ((now c - t1) / 86400000))
          <= exp (- 0.1 * ((now c - t2) / 86400000))) as Hexp.
  { destruct (Req_dec_T t1 t2) as [->|Hne]; [lra|].
    left. apply exp_increasing. lra. }
  pose proof (exp_pos (- 0.1 * ((now c - t1) / 86400000))) as Hpos.
  set (e1 := exp (- 0.1 * ((now c - t1) / 86400000))) in *.
  set (e2 := exp (- 0.1 * ((now c - t2) / 86400000))) in *.
  assert (e1 * w * 0.1 <= e2 * w * 0.1) as Hterm by nra.
  apply Rle_min_compat_r. apply Rmult_le_compat_r; [lra|].
  destruct (boost_recent o), (boost_preferences o); lra.
Qed.

Lemma newer_entry_scores_no_lower_witness :
  exists y1 y2 : R,
    similarity (boost (Sample.clock_at (Sample.new_year_ms + Sample.day_ms))
                  Sample.recent_only
                  (Sample.hit 0.8 (Some Sample.new_year)
                     (Some (Sample.knobs 1 0.5 0.5)))) = Num y1
    /\ similarity (boost (Sample.clock_at (Sample.new_year_ms + Sample.day_ms))
                     Sample.recent_only
                     (Sample.hit 0.8 (Some "2024-01-02T00:00:00.000Z")
                        (Some (Sample.knobs 1 0.5 0.5)))) = Num y2
    /\ y1 <= y2.
Proof.
  destruct (newer_entry_scores_no_lower
              (Sample.clock_at (Sample.new_year_ms + Sample.day_ms))
              Sample.recent_only
              (Sample.hit 0.8 (Some Sample.new_year)
                 (Some (Sample.knobs 1 0.5 0.5)))
              (Sample.hit 0.8 (Some "2024-01-02T00:00:00.000Z")
                 (Some (Sample.knobs 1 0.5 0.5)))
              0.8 (IZR Sample.new_year_ms)
              (IZR (Sample.new_year_ms + Sample.day_ms)))
    as (y1 & y2 & H1 & H2 & H3).
  - reflexivity.
  - reflexivity.
  - reflexivity.
  - exact Date_parse_new_year.
  - exact Date_parse_next_day.
  - apply IZR_le. unfold Sample.day_ms. lia.
  - simpl. lra.
  - simpl. lra.
  - simpl. lra.
  - exists y1, y2. auto.
Defined.

(** X5. Boosting never lowers a score: for a raw similarity between 0 and
    1, knobs that are absent or not negative, and a [boost_factor] that is
    absent, 0 or at least 1, the reported similarity is at least the raw
    one. *)
Theorem boost_never_lowers (c : clock) (o : options) (r : result)
    (x t : R) :
  similarity r = Num x -> 0 <= x <= 1 ->
  createdAt c r = Num t ->
  nonneg_knob (recency_weight (metadata_or_empty r)) ->
  nonneg_knob (user_preference_alignment (metadata_or_empty r)) ->
  (boost_factor (metadata_or_empty r) = None
   \/ boost_factor (metadata_or_empty r) = Some (Num 0)
   \/ exists f, boost_factor (metadata_or_empty r) = Some (Num f) /\ 1 <= f) ->
  exists y : R, similarity (boost c o r) = Num y /\ x <= y.
Proof.
  intros Hx Hx01 Ht Hw Ha Hf.
  assert (nonneg_knob (boost_factor (metadata_or_empty r))) as Hf'.
  { destruct Hf as [->|[->|(f & -> & Hf)]]; simpl; lra. }
  destruct (adjusted_closed_form _ Hf' Hw Ha)
    as (w & a & m & Hw0 & Ha0 & Hm0 & Hm1 & Hadj).
  specialize (Hm1 Hf).
  unfold boost; simpl. rewrite (Hadj c o r x t eq_refl Hx Ht). simpl.
  eexists. split; [reflexivity|].
  pose proof (exp_pos (- 0.1 * ((now c - t) / 86400000))) as Hexp.
  set (e := exp (- 0.1 * ((now c - t) / 86400000))) in *.
  assert (0 <= e * w * 0.1) as Hterm by nra.
  apply Rmin_glb; [|lra].
  set (q := if boost_recent o then e * w * 0.1 else 0).
  set (p := if boost_preferences o then a * 0.1 else 0).
  assert (0 <= q) by (unfold q; destruct (boost_recent o); lra).
  assert (0 <= p) by (unfold p; destruct (boost_preferences o); lra).
  nra.
Qed.

Lemma boost_never_lowers_witness :
  exists y : R,
    similarity (boost (Sample.clock_at Sample.new_year_ms) Sample.recent_only
                  (Sample.hit 0.8 (Some Sample.new_year)
                     (Some (Sample.knobs 2 0.5 0.5)))) = Num y
    /\ 0.8 <= y.
Proof.
  apply (boost_never_lowers (Sample.clock_at Sample.new_year_ms)
           Sample.recent_only
           (Sample.hit 0.8 (Some Sample.new_year) (Some (Sample.knobs 2 0.5 0.5)))
           0.8 (IZR Sample.new_year_ms)).
  - reflexivity.
  - lra.
  - exact Date_parse_new_year.
  - simpl. lra.
  - simpl. lra.
  - right. right. exists 2. split; [reflexivity | lra].
Defined.

End RankingExtras.

(** ** More on the stored entries and the routes *)

Module ServiceExtras.
Import Schema Validation Service Routes ValidationFacts ServiceFacts.

(** X6. An entry created under a fresh identifier can be fetched under
    it, with every field of the payload and its [_id]; the answer of the
    creation carries the same record, and [id] beside [_id] unless the
    payload has an [id] of its own; any other identifier fetches what it
    fetched before. *)
Theorem created_entry_can_be_fetched (uuid : string)
    (entryData : gmap string value) (coll : gmap string (gmap string value)) :
  coll !! uuid = None ->
  entryData !! "_id" = None ->
  exists coll' : gmap string (gmap string value),
    createEntry uuid entryData coll
    = (coll', Success (VObj (<["_id":=VStr uuid]> entryData
                             ∪ {["id" := VStr uuid]})))
    /\ getEntryById uuid coll'
       = Success (VObj (<["_id":=VStr uuid]> entryData))
    /\ forall id : string,
         id <> uuid -> getEntryById id coll' = getEntryById id coll.
Proof.
  intros Hfresh Hid.
  assert (entryData ∪ {["_id" := VStr uuid]} = <["_id":=VStr uuid]> entryData)
    as Hentry.
  { rewrite insert_union_singleton_l. apply map_union_comm.
    apply map_disjoint_singleton_r_2. exact Hid. }
  exists (<[uuid:=<["_id":=VStr uuid]> entryData]> coll).
  split; [|split].
  - rewrite (createEntry_inserts uuid entryData coll Hfresh Hid).
    by rewrite Hentry.
  - unfold getEntryById, findOne. by rewrite lookup_insert_eq.
  - intros id Hne. unfold getEntryById, findOne.
    by rewrite lookup_insert_ne.
Qed.

Lemma created_entry_can_be_fetched_witness :
  exists coll' : gmap string (gmap string value),
    (createEntry Sample.an_id Sample.replacement_body ∅).1 = coll'
    /\ getEntryById Sample.an_id coll'
       = Success (VObj (<["_id":=VStr Sample.an_id]> Sample.replacement_body)).
Proof.
  destruct (created_entry_can_be_fetched Sample.an_id Sample.replacement_body ∅)
    as (coll' & H1 & H2 & _).
  - apply lookup_empty.
  - vm_compute; reflexivity.
  - exists coll'. split; [by rewrite H1 | exact H2].
Defined.

(** X7. [deleteEntry] removes the entry of that identifier and nothing
    else: afterwards the identifier is not found, every other identifier
    fetches what it fetched before, and the answer is "not found" exactly
    when there was no such entry. *)
Theorem deleted_entry_is_gone (id : string)
    (coll : gmap string (gmap string value)) :
  (deleteEntry id coll).1 = delete id coll
  /\ getEntryById id (deleteEntry id coll).1 = Failure not_found
  /\ (forall id' : string,
        id' <> id ->
        getEntryById id' (deleteEntry id coll).1 = getEntryById id' coll)
  /\ ((deleteEntry id coll).2 = NotDeleted not_found <-> coll !! id = None).
Proof.
  assert ((deleteEntry id coll).1 = delete id coll) as H1.
  { unfold deleteEntry, deleteOne. destruct (coll !! id) eqn:E; simpl; [done|].
    symmetry. by apply delete_id. }
  split; [exact H1|]. rewrite H1. split; [|split].
  - unfold getEntryById, findOne. by rewrite lookup_delete_eq.
  - intros id' Hne. unfold getEntryById, findOne.
    by rewrite lookup_delete_ne.
  - unfold deleteEntry, deleteOne. destruct (coll !! id); simpl; split; done.
Qed.

(** X8. [updateEntry] never adds or removes an entry and touches no entry
    but the one it names, whatever the payload; on an identifier that is
    not stored it answers "not found" and leaves the collection as it
    was. *)
Theorem updateEntry_touches_one_entry (id : string)
    (newEntryData : gmap string value)
    (coll : gmap string (gmap string value)) :
  dom (updateEntry id newEntryData coll).1 = dom coll
  /\ (forall id' : string,
        id' <> id -> (updateEntry id newEntryData coll).1 !! id' = coll !! id')
  /\ (coll !! id = None ->
      updateEntry id newEntryData coll = (coll, Failure not_found)).
Proof.
  unfold updateEntry, findOne, replaceOne.
  destruct (coll !! id) as [existing|] eqn:E; [|by repeat split].
  assert (forall d, dom (<[id:=d]> coll) = dom coll) as Hd.
  { intros d. apply dom_insert_lookup_L. by rewrite E. }
  destruct (replacementEntry id newEntryData existing !! "_id")
    as [[|b|q|k|l|o]|]; simpl; try (by repeat split).
  - destruct (String.eqb k id); simpl; [|by repeat split].
    rewrite lookup_insert_eq. simpl. split; [apply Hd|]. split; [|done].
    intros id' Hne. by rewrite lookup_insert_ne.
  - rewrite lookup_insert_eq. simpl. split; [apply Hd|]. split; [|done].
    intros id' Hne. by rewrite lookup_insert_ne.
Qed.

Lemma updateEntry_touches_one_entry_witness :
  updateEntry Sample.a_user Sample.replacement_body
    {[Sample.an_id := Sample.stored_entry]}
  = ({[Sample.an_id := Sample.stored_entry]}, Failure not_found).
Proof.
  apply (updateEntry_touches_one_entry Sample.a_user Sample.replacement_body
           {[Sample.an_id := Sample.stored_entry]}).
  by apply lookup_singleton_ne.
Defined.

(** X9. A replacement wholly supersedes the one before it: replacing an
    entry twice gives the collection and the answer of the second
    replacement alone, the creation time of the entry included. *)
Theorem second_replacement_wins (id : string)
    (first second existing : gmap string value)
    (coll : gmap string (gmap string value)) :
  coll !! id = Some existing ->
  first !! "_id" = None ->
  second !! "_id" = None ->
  updateEntry id second (updateEntry id first coll).1
  = updateEntry id second coll.
Proof.
  intros Hcoll H1 H2.
  rewrite (updateEntry_replaces id first existing coll Hcoll H1). cbn [fst].
  rewrite (updateEntry_replaces id second (replacementEntry id first existing)
             (<[id:=replacementEntry id first existing]> coll))
    by (by rewrite ?lookup_insert_eq).
  rewrite (updateEntry_replaces id second existing coll Hcoll H2).
  assert (replacementEntry id second (replacementEntry id first existing)
          = replacementEntry id second existing) as ->.
  { unfold replacementEntry at 1 3.
    by rewrite replacementEntry_created_at. }
  by rewrite insert_insert_eq.
Qed.

Lemma second_replacement_wins_witness :
  updateEntry Sample.an_id Sample.backdated_body
    (updateEntry Sample.an_id Sample.replacement_body
       {[Sample.an_id := Sample.stored_entry]}).1
  = updateEntry Sample.an_id Sample.backdated_body
      {[Sample.an_id := Sample.stored_entry]}.
Proof.
  apply (second_replacement_wins Sample.an_id Sample.replacement_body
           Sample.backdated_body Sample.stored_entry
           {[Sample.an_id := Sample.stored_entry]}).
  - apply lookup_singleton_eq.
  - vm_compute; reflexivity.
  - vm_compute; reflexivity.
Defined.

End ServiceExtras.

Module RoutesExtras.
Import Schema Validation Service Routes ValidationFacts ServiceFacts.

(** The violations and the converted value of [paramsIdSchema] on the
    parameters of a route. *)
Lemma paramsId_validate_at (L : lib) (id : string) :
  validate_at L paramsIdSchema [] (Some (VObj {["id" := VStr id]}))
  = (if String.eqb id ""
     then [error Joi.required_flags [Key "id"] string_empty (Some (VStr id))]
     else if guid L id then []
          else [error Joi.required_flags [Key "id"] string_guid (Some (VStr id))],
     Some (VObj {["id" := VStr id]})).
Proof.
  unfold paramsIdSchema, Joi.object. rewrite validate_at_object.
  rewrite each_key_cons. cbn [fst snd]. rewrite lookup_singleton_eq.
  assert (validate_at L (Joi.string_ |> Joi.uuid |> Joi.required)
            ([] ++ [Key "id"]) (Some (VStr id))
          = (if String.eqb id ""
             then [error Joi.required_flags [Key "id"] string_empty (Some (VStr id))]
             else if guid L id then []
                  else [error Joi.required_flags [Key "id"] string_guid
                          (Some (VStr id))],
             Some (VStr id))) as ->.
  { simpl. destruct (String.eqb id ""); [done|]. by destruct (guid L id). }
  cbn [fst snd each_key]. rewrite insert_empty, app_nil_r. reflexivity.
Qed.

Lemma paramsId_accepted (L : lib) (id : string) :
  id <> "" -> guid L id = true ->
  validate L paramsIdSchema (VObj {["id" := VStr id]})
  = inr (VObj {["id" := VStr id]}).
Proof.
  intros Hne Hg. unfold validate. rewrite paramsId_validate_at.
  apply String.eqb_neq in Hne. by rewrite Hne, Hg.
Qed.

Lemma paramsId_refused (L : lib) (id : string) :
  id <> "" -> guid L id = false ->
  validate L paramsIdSchema (VObj {["id" := VStr id]})
  = inl [{| field := "id";
            problem := quote +:+ "id" +:+ quote +:+ " must be a valid GUID";
            offending := Some (VStr id) |}].
Proof.
  intros Hne Hg. unfold validate. rewrite paramsId_validate_at.
  apply String.eqb_neq in Hne. by rewrite Hne, Hg.
Qed.

Lemma paramsId_inr (L : lib) (id : string) (params : value) :
  validate L paramsIdSchema (VObj {["id" := VStr id]}) = inr params ->
  params = VObj {["id" := VStr id]} /\ id <> "" /\ guid L id = true.
Proof.
  unfold validate. rewrite paramsId_validate_at.
  destruct (String.eqb_spec id ""); [done|].
  destruct (guid L id); [|done]. by intros [= <-].
Qed.

(** In the model, where the collection answers every call, a route that
    writes leaves the collection as it was or answers with success. *)
Lemma unchanged_or_success (L : lib) (uuid id : string)
    (body : value) (coll : gmap string (gmap string value)) :
  ((post_entries L uuid body coll).1 = coll
   \/ exists data, (post_entries L uuid body coll).2 = Created data)
  /\ ((put_entries L id body coll).1 = coll
      \/ exists data, (put_entries L id body coll).2 = OK data)
  /\ ((delete_entries L id coll).1 = coll
      \/ exists m, (delete_entries L id coll).2 = Removed m).
Proof.
  split; [|split].
  - unfold post_entries.
    destruct (validate L createSemanticSearchSchema body) as [?|body'];
      [by left|].
    unfold createEntry. destruct (insertOne _ coll); simpl; [right|left]; eauto.
  - unfold put_entries.
    destruct (validate L paramsIdSchema _) as [?|params]; [by left|].
    destruct (validate L updateSemanticSearchSchema body) as [?|body'];
      [by left|].
    destruct (properties params !! "id") as [[|b|q|id'|l|o]|]; try by left.
    unfold updateEntry, findOne, replaceOne.
    destruct (coll !! id') as [existing|]; [|by left].
    destruct (replacementEntry id' (properties body') existing !! "_id")
      as [[|b|q|k|l|o]|]; simpl; try by left.
    + destruct (String.eqb k id'); simpl; [|by left].
      rewrite lookup_insert_eq. right; eauto.
    + rewrite lookup_insert_eq. right; eauto.
  - unfold delete_entries.
    destruct (validate L paramsIdSchema _) as [?|params]; [by left|].
    destruct (properties params !! "id") as [[|b|q|id'|l|o]|]; try by left.
    unfold deleteEntry, deleteOne.
    destruct (coll !! id'); simpl; [right|left]; eauto.
Qed.

(** X10. A request that a route on entries answers with 400 or with 404
    leaves the collection as it was: a body or an identifier that fails
    validation does not reach the service, and "not found" is answered
    only when nothing was replaced or deleted. *)
Theorem refused_requests_do_not_write (L : lib) (uuid id : string)
    (body : value) (coll : gmap string (gmap string value)) :
  (forall details,
      (post_entries L uuid body coll).2 = BadRequest details ->
      (post_entries L uuid body coll).1 = coll)
  /\ (forall details,
        (put_entries L id body coll).2 = BadRequest details ->
        (put_entries L id body coll).1 = coll)
  /\ (forall e,
        (put_entries L id body coll).2 = NotFound e ->
        (put_entries L id body coll).1 = coll)
  /\ (forall details,
        (delete_entries L id coll).2 = RemovalRefused details ->
        (delete_entries L id coll).1 = coll)
  /\ (forall e,
        (delete_entries L id coll).2 = NothingToRemove e ->
        (delete_entries L id coll).1 = coll).
Proof.
  destruct (unchanged_or_success L uuid id body coll) as (Hpost & Hput & Hdel).
  repeat split; intros x Hx.
  - destruct Hpost as [H|[data H]]; [done | congruence].
  - destruct Hput as [H|[data H]]; [done | congruence].
  - destruct Hput as [H|[data H]]; [done | congruence].
  - destruct Hdel as [H|[m H]]; [done | congruence].
  - destruct Hdel as [H|[m H]]; [done | congruence].
Qed.

(** X11. An identifier that is not a GUID is answered 400 by the read,
    the replace and the delete route alike, with one violation against
    [id] that carries the identifier; the collection is not touched. *)
Theorem malformed_id_is_refused (L : lib) (id : string) (body : value)
    (coll : gmap string (gmap string value)) :
  id <> "" ->
  guid L id = false ->
  let details :=
    [{| field := "id";
        problem := quote +:+ "id" +:+ quote +:+ " must be a valid GUID";
        offending := Some (VStr id) |}] in
  get_entries L id coll = BadRequest details
  /\ put_entries L id body coll = (coll, BadRequest details)
  /\ delete_entries L id coll = (coll, RemovalRefused details).
Proof.
  intros Hne Hg details.
  unfold get_entries, put_entries, delete_entries.
  by rewrite (paramsId_refused L id Hne Hg).
Qed.

Lemma malformed_id_is_refused_witness :
  get_entries Sample.L "42" {[Sample.an_id := Sample.stored_entry]}
  = BadRequest
      [{| field := "id";
          problem := quote +:+ "id" +:+ quote +:+ " must be a valid GUID";
          offending := Some (VStr "42") |}].
Proof.
  apply (malformed_id_is_refused Sample.L "42" VNull
           {[Sample.an_id := Sample.stored_entry]}).
  - discriminate.
  - vm_compute; reflexivity.
Defined.

(** X12. What the replace route answers with success is what the read
    route then answers for the same identifier. *)
Theorem read_follows_replace (L : lib) (id : string) (body data : value)
    (coll coll' : gmap string (gmap string value)) :
  put_entries L id body coll = (coll', OK data) ->
  get_entries L id coll' = OK data.
Proof.
  unfold put_entries, get_entries.
  destruct (validate L paramsIdSchema _) as [?|params] eqn:Hp; [done|].
  apply paramsId_inr in Hp as (-> & _ & _).
  destruct (validate L updateSemanticSearchSchema body) as [?|body']; [done|].
  cbn [properties]. rewrite lookup_singleton_eq.
  unfold updateEntry, getEntryById, findOne, replaceOne.
  destruct (coll !! id) as [existing|]; [|done].
  destruct (replacementEntry id (properties body') existing !! "_id")
    as [[|b|q|k|l|o]|]; simpl; try done.
  - destruct (String.eqb k id); simpl; [|done].
    rewrite lookup_insert_eq. intros [= <- <-]. by rewrite lookup_insert_eq.
  - rewrite lookup_insert_eq. intros [= <- <-]. by rewrite lookup_insert_eq.
Qed.

Lemma read_follows_replace_witness :
  exists (coll' : gmap string (gmap string value)) (data : value),
    put_entries Sample.L Sample.an_id (VObj Sample.tampered_body)
      {[Sample.an_id := Sample.stored_entry]} = (coll', OK data)
    /\ get_entries Sample.L Sample.an_id coll' = OK data.
Proof.
  eexists _, _. split.
  - vm_compute; reflexivity.
  - apply (read_follows_replace Sample.L Sample.an_id
             (VObj Sample.tampered_body) _
             {[Sample.an_id := Sample.stored_entry]}).
    vm_compute; reflexivity.
Defined.

(** X13. After the delete route answered with success the read route
    answers 404 for that identifier, and a second delete answers 404 and
    changes nothing. *)
Theorem deleted_entry_is_not_served (L : lib) (id m : string)
    (coll coll' : gmap string (gmap string value)) :
  delete_entries L id coll = (coll', Removed m) ->
  get_entries L id coll' = NotFound not_found
  /\ delete_entries L id coll' = (coll', NothingToRemove not_found).
Proof.
  unfold delete_entries, get_entries.
  destruct (validate L paramsIdSchema _) as [?|params] eqn:Hp; [done|].
  apply paramsId_inr in Hp as (-> & _ & _).
  cbn [properties]. rewrite lookup_singleton_eq.
  unfold deleteEntry, deleteOne, getEntryById, findOne.
  destruct (coll !! id) as [existing|]; simpl; [|done].
  intros [= <- <-]. by rewrite lookup_delete_eq.
Qed.

Lemma deleted_entry_is_not_served_witness :
  get_entries Sample.L Sample.an_id ∅ = NotFound not_found
  /\ delete_entries Sample.L Sample.an_id ∅ = (∅, NothingToRemove not_found).
Proof.
  apply (deleted_entry_is_not_served Sample.L Sample.an_id
           "Semantic search entry deleted successfully"
           {[Sample.an_id := Sample.stored_entry]} ∅).
  unfold delete_entries.
  rewrite (paramsId_accepted Sample.L Sample.an_id);
    [|discriminate|vm_compute; reflexivity].
  cbn [properties]. rewrite lookup_singleton_eq.
  unfold deleteEntry, deleteOne. rewrite lookup_singleton_eq. simpl.
  by rewrite delete_singleton_eq.
Defined.

End RoutesExtras.

(** ** More on the validation of requests *)

Module ValidationExtras.
Import Schema Validation Service ValidationFacts ServiceFacts.

(** The loop over the keys of a schema reads the object under those keys
    only. *)
Lemma each_key_agree
    (check : schema -> list segment -> option value -> list detail * option value)
    (o1 o2 : gmap string value) (p : list segment) (ks : list (string * schema)) :
  (forall k : string, k ∈ ks.*1 -> o1 !! k = o2 !! k) ->
  each_key check o1 p ks = each_key check o2 p ks.
Proof.
  induction ks as [|[k child] ks IH]; intros Hagree; [done|].
  rewrite !each_key_cons.
  rewrite (Hagree k) by (simpl; by left).
  rewrite IH; [done|]. intros k' Hk'. apply Hagree. simpl. by right.
Qed.

Lemma flat_map_nil {A B : Type} (f : A -> list B) (l : list A) (a : A) :
  flat_map f l = [] -> In a l -> f a = [].
Proof.
  induction l as [|b l IH]; intros Hnil Hin; [destruct Hin|].
  simpl in Hnil. apply app_eq_nil in Hnil as [H1 H2].
  destruct Hin as [->|Hin]; [done | by apply IH].
Qed.

(** What passes a string, a number or a boolean schema. *)
Lemma string_clean (L : lib) (f : flags) (rules : list string_rule)
    (p : list segment) (x : value) :
  (validate_at L (JString f rules) p (Some x)).1 = [] ->
  exists str : string,
    x = VStr str /\ str <> ""
    /\ (validate_at L (JString f rules) p (Some x)).2 = Some (VStr str)
    /\ forall r, In r rules -> string_check L f p str r = [].
Proof.
  simpl. destruct x as [|b|q|str|l|o]; try discriminate.
  destruct (String.eqb_spec str ""); [discriminate|]. simpl. intros Hnil.
  exists str. repeat split; try done.
  intros r Hr. by apply (flat_map_nil _ rules).
Qed.

Lemma number_clean (L : lib) (f : flags) (rules : list number_rule)
    (p : list segment) (x : value) :
  (validate_at L (JNumber f rules) p (Some x)).1 = [] ->
  exists q : Q,
    coerce_number L x = VNum q /\ unsafe q = false
    /\ (validate_at L (JNumber f rules) p (Some x)).2 = Some (VNum q)
    /\ forall r, In r rules -> number_check f p q r = [].
Proof.
  rewrite validate_at_number. destruct (imprecise L x); [discriminate|].
  destruct (coerce_number L x) as [|b|q|str|l|o]; try discriminate.
  destruct (unsafe q) eqn:Hs; [discriminate|]. simpl. intros Hnil.
  exists q. repeat split; try done.
  intros r Hr. by apply (flat_map_nil _ rules).
Qed.

Lemma boolean_clean (L : lib) (f : flags) (p : list segment) (x : value) :
  (validate_at L (JBoolean f) p (Some x)).1 = [] ->
  exists b : bool,
    coerce_boolean x = VBool b
    /\ (validate_at L (JBoolean f) p (Some x)).2 = Some (VBool b).
Proof.
  simpl. destruct (coerce_boolean x) as [|b|q|str|l|o]; try discriminate.
  intros _. by exists b.
Qed.

Lemma number_min_clean (f : flags) (p : list segment) (q : Q) (limit : Z) :
  number_check f p q (n_min limit) = [] -> (inject_Z limit <= q)%Q.
Proof.
  simpl. destruct (Qle_bool (inject_Z limit) q) eqn:E; [|discriminate].
  intros _. by apply Qle_bool_iff.
Qed.

Lemma number_max_clean (f : flags) (p : list segment) (q : Q) (limit : Z) :
  number_check f p q (n_max limit) = [] -> (q <= inject_Z limit)%Q.
Proof.
  simpl. destruct (Qle_bool q (inject_Z limit)) eqn:E; [|discriminate].
  intros _. by apply Qle_bool_iff.
Qed.

Lemma number_integer_clean (f : flags) (p : list segment) (q : Q) :
  number_check f p q n_integer = [] -> is_integer q = true.
Proof. simpl. by destruct (is_integer q). Qed.

(** A mandatory key that is absent is reported. *)
Lemma required_key_reported (L : lib) (f : flags)
    (keys : list (string * schema)) (o : gmap string value) (k : string)
    (child : schema) :
  In (k, child) keys ->
  presence (flags_of child) = required_ ->
  o !! k = None ->
  error (flags_of child) [Key k] any_required None
  ∈ (validate_at L (JObject f keys) [] (Some (VObj o))).1.
Proof.
  intros Hin Hp Ho. apply (object_reports _ _ _ _ _ k child); [done|].
  rewrite Ho. destruct child; simpl in *; rewrite Hp; by left.
Qed.

(** X14. On create and on replace alike, every mandatory field that the
    body does not have is reported by name as required, whatever else is
    wrong with the body. *)
Theorem missing_fields_are_all_reported (L : lib) (s : schema)
    (o : gmap string value) (k : string) :
  s = createSemanticSearchSchema \/ s = updateSemanticSearchSchema ->
  In k ["user_id"; "entry_id"; "content_type"; "title"; "content";
        "session_id"; "primary_embedding"; "created_at"; "updated_at";
        "tags"; "linked_entities"] ->
  o !! k = None ->
  exists details : list field_error,
    validate L s (VObj o) = inl details
    /\ {| field := k;
          problem := quote +:+ k +:+ quote +:+ " is required";
          offending := None |} ∈ details.
Proof.
  intros Hs Hk Ho.
  assert (s = JObject Joi.no_flags entry_keys) as ->
    by (by destruct Hs as [->| ->]).
  clear Hs.
  assert (exists d : detail,
             d ∈ (validate_at L (JObject Joi.no_flags entry_keys) []
                    (Some (VObj o))).1
             /\ to_field_error d
                = {| field := k;
                     problem := quote +:+ k +:+ quote +:+ " is required";
                     offending := None |}) as (d & Hd & Hfe).
  { simpl in Hk.
    repeat (destruct Hk as [<-|Hk];
            [match type of Ho with
             | _ !! ?k0 = None =>
                 eexists; split;
                 [apply (required_key_reported L _ _ o k0);
                  [solve_In | reflexivity | exact Ho]
                 | reflexivity]
             end|]).
    destruct Hk. }
  eexists. split.
  - apply validate_inl. intros Hnil. rewrite Hnil in Hd.
    by apply elem_of_nil in Hd.
  - rewrite <- Hfe. apply list_elem_of_fmap. by exists d.
Qed.

Lemma missing_fields_are_all_reported_witness :
  exists details : list field_error,
    validate Sample.L createSemanticSearchSchema
      (VObj (delete "tags" Sample.replacement_body)) = inl details
    /\ {| field := "tags";
          problem := quote +:+ "tags" +:+ quote +:+ " is required";
          offending := None |} ∈ details.
Proof.
  apply (missing_fields_are_all_reported Sample.L createSemanticSearchSchema
           (delete "tags" Sample.replacement_body) "tags").
  - by left.
  - solve_In.
  - apply lookup_delete_eq.
Defined.

(** X15. A field that the entry schema does not name never changes the
    outcome of validation, on create and on replace alike, and is not part
    of the accepted body that reaches the service. *)
Theorem unknown_fields_are_ignored (L : lib) (s : schema)
    (o : gmap string value) (k : string) (x : value) :
  s = createSemanticSearchSchema \/ s = updateSemanticSearchSchema ->
  k ∉ entry_keys.*1 ->
  validate L s (VObj (<[k:=x]> o)) = validate L s (VObj o)
  /\ forall v : value,
       validate L s (VObj (<[k:=x]> o)) = inr v -> properties v !! k = None.
Proof.
  intros Hs Hk.
  assert (s = JObject Joi.no_flags entry_keys) as ->
    by (by destruct Hs as [->| ->]).
  clear Hs.
  assert (each_key (validate_at L) (<[k:=x]> o) [] entry_keys
          = each_key (validate_at L) o [] entry_keys) as Hsame.
  { apply each_key_agree. intros k' Hk'. apply lookup_insert_ne.
    by intros ->. }
  split.
  - unfold validate. by rewrite !validate_at_object, Hsame.
  - intros v Hv. apply validate_inr in Hv as [_ ->].
    rewrite validate_at_object. cbn [snd default properties].
    destruct ((each_key (validate_at L) (<[k:=x]> o) [] entry_keys).2 !! k)
      eqn:E; [|done].
    exfalso. apply Hk.
    apply (each_key_known (validate_at L) (<[k:=x]> o) []). by rewrite E.
Qed.

Lemma unknown_fields_are_ignored_witness :
  validate Sample.L updateSemanticSearchSchema (VObj Sample.tampered_body)
  = validate Sample.L updateSemanticSearchSchema (VObj Sample.replacement_body).
Proof.
  apply (unknown_fields_are_ignored Sample.L updateSemanticSearchSchema
           Sample.replacement_body "_id" (VStr Sample.a_user)).
  - by right.
  - apply (bool_decide_unpack _). by vm_compute.
Defined.

(** *** What an accepted body is known to satisfy *)

Lemma required_clean (L : lib) (s : schema) (p : list segment)
    (ov : option value) :
  presence (flags_of s) = required_ ->
  (validate_at L s p ov).1 = [] ->
  exists x : value, ov = Some x.
Proof.
  intros Hp Hnil. destruct ov as [x|]; [by exists x|].
  destruct s; simpl in *; rewrite Hp in Hnil; discriminate.
Qed.

Lemma optional_absent (L : lib) (s : schema) (p : list segment) :
  presence (flags_of s) = optional_ ->
  validate_at L s p None = ([], default_value (flags_of s)).
Proof. intros Hp. destruct s; simpl in *; by rewrite Hp. Qed.

Lemma string_max_clean (L : lib) (f : flags) (p : list segment)
    (str : string) (limit : Z) :
  string_check L f p str (s_max limit) = [] ->
  (utf16_length str <= limit)%Z.
Proof.
  simpl. destruct (Z.leb_spec (utf16_length str) limit);
    [done | discriminate].
Qed.

Lemma string_guid_clean (L : lib) (f : flags) (p : list segment)
    (str : string) :
  string_check L f p str s_guid = [] -> guid L str = true.
Proof. simpl. by destruct (guid L str). Qed.

Lemma Forall2_right {A B : Type} (P : A -> B -> Prop) (Q : B -> Prop)
    (l : list A) (k : list B) :
  Forall2 P l k -> (forall x y, P x y -> Q y) -> Forall Q k.
Proof.
  intros H HPQ. induction H as [|x y l k Hxy _ IH]; constructor; eauto.
Qed.

(** An array that passes a schema of optional items and a greatest
    length. *)
Lemma array_max_clean (L : lib) (f : flags) (it : schema) (p : list segment)
    (x : value) (limit : Z) :
  presence (flags_of it) = optional_ ->
  (validate_at L (JArray f (Some it) [a_max limit]) p (Some x)).1 = [] ->
  exists l : list value,
    x = VArr l
    /\ (validate_at L (JArray f (Some it) [a_max limit]) p (Some x)).2
       = Some (VArr (each_item (validate_at L it) p l 0).1.2)
    /\ (each_item (validate_at L it) p l 0).1.1 = []
    /\ (Z.of_nat (length l) <= limit)%Z.
Proof.
  intros Hp. destruct x as [|b|q|str|l|o]; try discriminate.
  rewrite validate_at_array. cbn [fst snd]. rewrite Hp. intros H.
  apply app_eq_nil in H as [Hitems H]. apply app_eq_nil in H as [_ H].
  exists l. split; [done|]. split; [done|]. split; [done|].
  cbn [flat_map] in H. unfold array_check in H.
  rewrite each_item_length in H.
  destruct (Z.leb_spec (Z.of_nat (length l)) limit); [done | discriminate].
Qed.

(** The facts about the value under a key of an accepted entry body. *)
Ltac key_facts Hnil k Hclean Hlookup :=
  let Hin := fresh "Hin" in
  eassert (In (k, _) entry_keys) as Hin by solve_In;
  pose proof (each_key_clean _ _ _ _ _ _ Hnil Hin) as Hclean;
  match type of Hnil with
  | (each_key ?c ?o ?p _).1 = [] =>
      pose proof (each_key_lookup c o p _ _ _ entry_keys_NoDup Hin) as Hlookup
  end;
  clear Hin.

Ltac guid_field Hnil k str Hstored Hguid :=
  let Hc := fresh "Hc" in
  let Hl := fresh "Hl" in
  let x := fresh "x" in
  let Hx := fresh "Hx" in
  let Hrules := fresh "Hrules" in
  key_facts Hnil k Hc Hl;
  match type of Hc with
  | (validate_at ?L0 ?s0 ?p0 ?ov0).1 = [] =>
      destruct (required_clean L0 s0 p0 ov0 eq_refl Hc) as [x Hx]
  end;
  rewrite Hx in Hc, Hl;
  destruct (string_clean _ _ _ _ _ Hc) as (str & -> & _ & Hstored & Hrules);
  rewrite Hstored in Hl; clear Hstored; rename Hl into Hstored;
  pose proof (string_guid_clean _ _ _ _ (Hrules s_guid ltac:(solve_In)))
    as Hguid;
  clear Hc Hx Hrules.

Ltac bounded_field Hnil k limit str Hstored Hlow Hhigh :=
  let Hc := fresh "Hc" in
  let Hl := fresh "Hl" in
  let x := fresh "x" in
  let Hx := fresh "Hx" in
  let Hne := fresh "Hne" in
  let Hrules := fresh "Hrules" in
  key_facts Hnil k Hc Hl;
  match type of Hc with
  | (validate_at ?L0 ?s0 ?p0 ?ov0).1 = [] =>
      destruct (required_clean L0 s0 p0 ov0 eq_refl Hc) as [x Hx]
  end;
  rewrite Hx in Hc, Hl;
  destruct (string_clean _ _ _ _ _ Hc) as (str & -> & Hne & Hstored & Hrules);
  rewrite Hstored in Hl; clear Hstored; rename Hl into Hstored;
  pose proof Hne as Hlow;
  pose proof (string_max_clean _ _ _ _ _ (Hrules (s_max limit) ltac:(solve_In)))
    as Hhigh;
  clear Hc Hx Hne Hrules.

(** X16. A body accepted on create or on replace reaches the service
    with three identifiers that are GUIDs, a content type that is not
    empty and has at most 10000 UTF-16 code units, a title that is not
    empty and has at most 1000, and at most 20 tags, each a string that is
    not empty and has at most 100. *)
Theorem accepted_entry_is_within_bounds (L : lib) (s : schema)
    (body v : value) :
  s = createSemanticSearchSchema \/ s = updateSemanticSearchSchema ->
  validate L s body = inr v ->
  exists (o' : gmap string value) (user entry session kind title : string)
         (tags : list value),
    v = VObj o'
    /\ o' !! "user_id" = Some (VStr user) /\ guid L user = true
    /\ o' !! "entry_id" = Some (VStr entry) /\ guid L entry = true
    /\ o' !! "session_id" = Some (VStr session) /\ guid L session = true
    /\ o' !! "content_type" = Some (VStr kind)
    /\ kind <> ""
    /\ (utf16_length kind <= 10000)%Z
    /\ o' !! "title" = Some (VStr title)
    /\ title <> ""
    /\ (utf16_length title <= 1000)%Z
    /\ o' !! "tags" = Some (VArr tags)
    /\ (Z.of_nat (length tags) <= 20)%Z
    /\ Forall (fun y => exists str : string,
                 y = VStr str /\ str <> ""
                 /\ (utf16_length str <= 100)%Z) tags.
Proof.
  intros Hs Hv.
  assert (s = JObject Joi.no_flags entry_keys) as ->
    by (by destruct Hs as [->| ->]).
  clear Hs. apply validate_inr in Hv as [Hnil ->].
  destruct (validate_at_object_inv _ _ _ _ _ Hnil) as [o ->].
  rewrite validate_at_object in Hnil |- *. cbn [fst snd default] in *.
  guid_field Hnil "user_id" user Huser Huser'.
  guid_field Hnil "entry_id" entry Hentry Hentry'.
  guid_field Hnil "session_id" session Hsession Hsession'.
  bounded_field Hnil "content_type" 10000%Z kind Hkind Hkind1 Hkind2.
  bounded_field Hnil "title" 1000%Z title Htitle Htitle1 Htitle2.
  key_facts Hnil "tags" Hc Hl.
  match type of Hc with
  | (validate_at ?L0 ?s0 ?p0 ?ov0).1 = [] =>
      destruct (required_clean L0 s0 p0 ov0 eq_refl Hc) as [x Hx]
  end.
  rewrite Hx in Hc, Hl.
  match type of Hc with
  | (validate_at _ (JArray ?f (Some ?it) _) ?p0 _).1 = [] =>
      destruct (array_max_clean L f it p0 x 20 eq_refl Hc)
        as (l & -> & Htags & Hitems & Hlen)
  end.
  rewrite Htags in Hl.
  eexists _, user, entry, session, kind, title, _.
  split; [reflexivity|].
  repeat (split; [eassumption|]).
  split; [by rewrite each_item_length|].
  apply (Forall2_right _ _ _ _ (each_item_clean _ _ _ _ Hitems)).
  intros y y' (j & w & Hcheck & ->).
  pose proof (f_equal fst Hcheck) as Hy. cbn [fst] in Hy.
  destruct (string_clean _ _ _ _ _ Hy) as (str & -> & Hne & Hw & Hrules).
  rewrite Hcheck in Hw. cbn [snd] in Hw. subst w. exists str.
  split; [done|]. split; [done|].
  eapply string_max_clean. apply Hrules. solve_In.
Qed.

Lemma accepted_entry_is_within_bounds_witness :
  exists (o' : gmap string value) (title : string),
    o' !! "title" = Some (VStr title)
    /\ (utf16_length title <= 1000)%Z.
Proof.
  destruct (accepted_entry_is_within_bounds Sample.L updateSemanticSearchSchema
              (VObj Sample.tampered_body) (VObj Sample.replacement_body))
    as (o' & user & entry & session & kind & title & tags & H).
  - by right.
  - vm_compute; reflexivity.
  - exists o', title. split; apply H.
Defined.

(** The same facts for the keys of any object schema. *)
Ltac key_facts_in Hnd Hnil k Hclean Hlookup :=
  let Hin := fresh "Hin" in
  match type of Hnil with
  | (each_key ?c ?o ?p ?ks).1 = [] =>
      eassert (In (k, _) ks) as Hin by solve_In;
      pose proof (each_key_clean c o p ks _ _ Hnil Hin) as Hclean;
      pose proof (each_key_lookup c o p ks _ _ Hnd Hin) as Hlookup
  end;
  clear Hin.

Ltac knob_field Hnd Hnil k q Hstored Hfloor :=
  let Hc := fresh "Hc" in
  let Hl := fresh "Hl" in
  let x := fresh "x" in
  let Hx := fresh "Hx" in
  let Hrules := fresh "Hrules" in
  key_facts_in Hnd Hnil k Hc Hl;
  match type of Hc with
  | (validate_at ?L0 ?s0 ?p0 ?ov0).1 = [] =>
      destruct (required_clean L0 s0 p0 ov0 eq_refl Hc) as [x Hx]
  end;
  rewrite Hx in Hc, Hl;
  destruct (number_clean _ _ _ _ _ Hc) as (q & _ & _ & Hstored & Hrules);
  rewrite Hstored in Hl; clear Hstored; rename Hl into Hstored;
  pose proof (number_min_clean _ _ _ _ (Hrules (n_min 0) ltac:(solve_In)))
    as Hfloor;
  clear Hc Hx Hrules.

(** X17. In a body accepted on create or on replace, [search_metadata]
    is either absent or an object that has all three knobs, each a number
    that is not negative. *)
Theorem accepted_knobs_are_not_negative (L : lib) (s : schema)
    (body v : value) :
  s = createSemanticSearchSchema \/ s = updateSemanticSearchSchema ->
  validate L s body = inr v ->
  properties v !! "search_metadata" = None
  \/ exists (m : gmap string value) (factor weight alignment : Q),
       properties v !! "search_metadata" = Some (VObj m)
       /\ m !! "boost_factor" = Some (VNum factor) /\ (0 <= factor)%Q
       /\ m !! "recency_weight" = Some (VNum weight) /\ (0 <= weight)%Q
       /\ m !! "user_preference_alignment" = Some (VNum alignment)
       /\ (0 <= alignment)%Q.
Proof.
  intros Hs Hv.
  assert (s = JObject Joi.no_flags entry_keys) as ->
    by (by destruct Hs as [->| ->]).
  clear Hs. apply validate_inr in Hv as [Hnil ->].
  destruct (validate_at_object_inv _ _ _ _ _ Hnil) as [o ->].
  rewrite validate_at_object in Hnil |- *.
  cbn [fst snd default from_option] in *. unfold Datatypes.id.
  cbn [properties].
  key_facts Hnil "search_metadata" Hc Hl.
  destruct (o !! "search_metadata") as [x|].
  - right. unfold search_metadata_schema in Hc, Hl.
    cbn [Joi.optional Joi.object Joi.with_flags] in Hc, Hl.
    destruct (validate_at_object_inv _ _ _ _ _ Hc) as [m ->].
    rewrite validate_at_object in Hc, Hl. cbn [fst snd] in Hc, Hl.
    assert (NoDup ["boost_factor"; "recency_weight"; "user_preference_alignment"])
      as Hnd by (apply (bool_decide_unpack _); by vm_compute).
    knob_field Hnd Hc "boost_factor" factor Hfactor Hfactor'.
    knob_field Hnd Hc "recency_weight" weight Hweight Hweight'.
    knob_field Hnd Hc "user_preference_alignment" alignment Halign Halign'.
    eexists _, factor, weight, alignment. split; [exact Hl|].
    by repeat (split; [eassumption|]).
  - left. by rewrite Hl.
Qed.

Lemma accepted_knobs_are_not_negative_witness :
  properties (VObj Sample.replacement_body) !! "search_metadata" = None
  \/ exists (m : gmap string value) (factor weight alignment : Q),
       properties (VObj Sample.replacement_body) !! "search_metadata"
       = Some (VObj m)
       /\ m !! "boost_factor" = Some (VNum factor) /\ (0 <= factor)%Q
       /\ m !! "recency_weight" = Some (VNum weight) /\ (0 <= weight)%Q
       /\ m !! "user_preference_alignment" = Some (VNum alignment)
       /\ (0 <= alignment)%Q.
Proof.
  apply (accepted_knobs_are_not_negative Sample.L updateSemanticSearchSchema
           (VObj Sample.tampered_body) (VObj Sample.replacement_body)).
  - by right.
  - vm_compute; reflexivity.
Defined.

(** X18. A search request that passes validation reaches the service
    as an object with an embedding of 768 items, a [limit] that is an
    integer from 1 to 100, a [similarity_threshold] from 0 to 1 and the two
    flags as booleans; what the request leaves out is 10, 0.7, [false] and
    [false]. *)
Theorem accepted_search_request (L : lib) (body v : value) :
  validate L searchQuerySchema body = inr v ->
  exists (o q' : gmap string value) (embedding : list value) (limit threshold : Q)
         (recent preferences : bool),
    body = VObj o /\ v = VObj q'
    /\ q' !! "embedding" = Some (VArr embedding)
    /\ length embedding = 768%nat
    /\ q' !! "limit" = Some (VNum limit)
    /\ is_integer limit = true /\ (1 <= limit)%Q /\ (limit <= 100)%Q
    /\ (o !! "limit" = None -> limit = 10%Q)
    /\ q' !! "similarity_threshold" = Some (VNum threshold)
    /\ (0 <= threshold)%Q /\ (threshold <= 1)%Q
    /\ (o !! "similarity_threshold" = None -> threshold = 0.7%Q)
    /\ q' !! "boost_recent" = Some (VBool recent)
    /\ (o !! "boost_recent" = None -> recent = false)
    /\ q' !! "boost_preferences" = Some (VBool preferences)
    /\ (o !! "boost_preferences" = None -> preferences = false).
Proof.
  intros Hv. apply validate_inr in Hv as [Hnil ->].
  unfold searchQuerySchema, Joi.object in Hnil |- *.
  destruct (validate_at_object_inv _ _ _ _ _ Hnil) as [o ->].
  rewrite validate_at_object in Hnil |- *.
  cbn [fst snd default from_option] in *. unfold Datatypes.id.
  assert (NoDup ["embedding"; "user_id"; "content_type"; "tags"; "limit";
                 "similarity_threshold"; "boost_recent"; "boost_preferences"])
    as Hnd by (apply (bool_decide_unpack _); by vm_compute).
  (* the embedding *)
  key_facts_in Hnd Hnil "embedding" He He'.
  match type of He with
  | (validate_at ?L0 ?s0 ?p0 ?ov0).1 = [] =>
      destruct (required_clean L0 s0 p0 ov0 eq_refl He) as [x Hx]
  end.
  rewrite Hx in He, He'. clear Hx.
  assert (exists l, x = VArr l) as [l ->]
    by (destruct x; try discriminate; by eexists).
  pose proof (array_clean _ _ _ _ _ _ He) as [_ Hlen].
  eassert (primaryEmbedding = JArray _ (Some _) _) as Hpe by reflexivity.
  rewrite Hpe, validate_at_array in He'. cbn [snd] in He'. clear Hpe.
  (* the limit *)
  key_facts_in Hnd Hnil "limit" Hn Hn'.
  assert (exists n : Q,
             (validate_at L
                (Joi.number |> Joi.integer |> Joi.min 1 |> Joi.max 100
                   |> Joi.default (VNum 10))
                ([] ++ [Key "limit"]) (o !! "limit")).2 = Some (VNum n)
             /\ is_integer n = true /\ (1 <= n)%Q /\ (n <= 100)%Q
             /\ (o !! "limit" = None -> n = 10%Q))
    as (n & Hn1 & Hn2 & Hn3 & Hn4 & Hn5).
  { destruct (o !! "limit") as [y|].
    - destruct (number_clean _ _ _ _ _ Hn) as (n & _ & _ & Hs & Hrules).
      exists n. split; [exact Hs|]. split; [|split; [|split; [|done]]].
      + eapply number_integer_clean. apply Hrules. solve_In.
      + apply (number_min_clean _ _ _ _ (Hrules (n_min 1) ltac:(solve_In))).
      + apply (number_max_clean _ _ _ _ (Hrules (n_max 100) ltac:(solve_In))).
    - exists 10%Q. repeat split; by vm_compute. }
  (* the threshold *)
  key_facts_in Hnd Hnil "similarity_threshold" Ht Ht'.
  assert (exists t : Q,
             (validate_at L
                (Joi.number |> Joi.min 0 |> Joi.max 1 |> Joi.default (VNum 0.7))
                ([] ++ [Key "similarity_threshold"])
                (o !! "similarity_threshold")).2 = Some (VNum t)
             /\ (0 <= t)%Q /\ (t <= 1)%Q
             /\ (o !! "similarity_threshold" = None -> t = 0.7%Q))
    as (t & Ht1 & Ht2 & Ht3 & Ht4).
  { destruct (o !! "similarity_threshold") as [y|].
    - destruct (number_clean _ _ _ _ _ Ht) as (t & _ & _ & Hs & Hrules).
      exists t. split; [exact Hs|]. split; [|split; [|done]].
      + apply (number_min_clean _ _ _ _ (Hrules (n_min 0) ltac:(solve_In))).
      + apply (number_max_clean _ _ _ _ (Hrules (n_max 1) ltac:(solve_In))).
    - exists 0.7%Q. repeat split; by vm_compute. }
  (* the flags *)
  key_facts_in Hnd Hnil "boost_recent" Hr Hr'.
  assert (exists b : bool,
             (validate_at L (Joi.boolean |> Joi.default (VBool false))
                ([] ++ [Key "boost_recent"]) (o !! "boost_recent")).2
             = Some (VBool b)
             /\ (o !! "boost_recent" = None -> b = false))
    as (br & Hr1 & Hr2).
  { destruct (o !! "boost_recent") as [y|].
    - destruct (boolean_clean _ _ _ _ Hr) as (b & _ & Hs). by exists b.
    - by exists false. }
  key_facts_in Hnd Hnil "boost_preferences" Hp Hp'.
  assert (exists b : bool,
             (validate_at L (Joi.boolean |> Joi.default (VBool false))
                ([] ++ [Key "boost_preferences"]) (o !! "boost_preferences")).2
             = Some (VBool b)
             /\ (o !! "boost_preferences" = None -> b = false))
    as (bp & Hp1 & Hp2).
  { destruct (o !! "boost_preferences") as [y|].
    - destruct (boolean_clean _ _ _ _ Hp) as (b & _ & Hs). by exists b.
    - by exists false. }
  eexists o, _, _, n, t, br, bp.
  split; [reflexivity|]. split; [reflexivity|].
  split; [exact He'|]. split; [by rewrite each_item_length; lia|].
  split; [by rewrite Hn'|]. do 4 (split; [assumption|]).
  split; [by rewrite Ht'|]. do 3 (split; [assumption|]).
  split; [by rewrite Hr'|]. split; [assumption|].
  split; [by rewrite Hp'|]. assumption.
Qed.

Lemma accepted_search_request_witness :
  exists (q' : gmap string value) (limit threshold : Q),
    q' !! "limit" = Some (VNum limit) /\ limit = 10%Q
    /\ q' !! "similarity_threshold" = Some (VNum threshold)
    /\ threshold = 0.7%Q.
Proof.
  destruct (accepted_search_request Sample.L
              (VObj {["embedding" := Sample.embedding_768]})
              (VObj (list_to_map
                       [("embedding", Sample.embedding_768);
                        ("limit", VNum 10);
                        ("similarity_threshold", VNum 0.7);
                        ("boost_recent", VBool false);
                        ("boost_preferences", VBool false)])))
    as (o & q' & e & n & t & br & bp & Ho & Hq & _ & _ & Hn & _ & _ & _ & Hn'
        & Ht & _ & _ & Ht' & _).
  - vm_compute; reflexivity.
  - injection Ho as <-. exists q', n, t.
    split; [exact Hn|]. split; [by apply Hn', lookup_singleton_ne|].
    split; [exact Ht|]. by apply Ht', lookup_singleton_ne.
Defined.

End ValidationExtras.

(** ** The error handler *)

Module ErrorHandlerFacts.
Import ErrorHandler.

Local Open Scope Z_scope.

(** The rule on rate limits changes the message only, and only for the
    status 429. *)
Lemma rate_step_cases (e : err) (d : draft) :
  rate_step e d
  = if decide (status e = Some 429)
    then set_error (d_status d) "Too many requests, please try again later" d
    else d.
Proof.
  unfold rate_step. destruct (decide (status e = Some 429)) as [->|Hne]; [done|].
  destruct (status e) as [[|p|p]|]; try reflexivity.
  do 9 (destruct p as [p|p|]; try reflexivity). by destruct Hne.
Qed.

Lemma rate_step_status (e : err) (d : draft) :
  d_status (rate_step e d) = d_status d.
Proof. rewrite rate_step_cases. by destruct (decide _). Qed.

Lemma rate_step_details (e : err) (d : draft) :
  d_details (rate_step e d) = d_details d.
Proof. rewrite rate_step_cases. by destruct (decide _). Qed.

Lemma duplicate_step_details (e : err) (d : draft) :
  d_details (duplicate_step e d) = d_details d.
Proof.
  unfold duplicate_step. destruct (code e) as [[|p|p]|]; try reflexivity.
  do 14 (destruct p as [p|p|]; try reflexivity).
Qed.

(** X19. An error whose message contains "token" or "auth" is answered
    401, whatever its own status, its code, its name, and whether it is a
    validation error; the text is "Authentication failed" unless the status
    of the error is 429. *)
Theorem auth_words_answer_401 (production : bool) (e : err) :
  mentions e "token" || mentions e "auth" = true ->
  r_status (errorHandler production e) = 401
  /\ (status e <> Some 429 ->
      r_error (errorHandler production e) = "Authentication failed").
Proof.
  intros Hm. unfold errorHandler. cbn [r_status r_error].
  set (d := cast_step e (duplicate_step e (astra_step e (joi_step e (initial e))))).
  assert (auth_step e d = set_error 401 "Authentication failed" d) as Hauth
    by (unfold auth_step; by rewrite Hm).
  assert (d_status (rate_step e (auth_step e d)) = 401) as Hst
    by (by rewrite rate_step_status, Hauth).
  unfold production_step. rewrite Hst.
  replace (401 =? 500) with false by reflexivity. rewrite andb_false_r.
  cbn [d_status d_message]. split; [done|].
  intros Hne. rewrite rate_step_cases.
  destruct (decide (status e = Some 429)); [done|]. by rewrite Hauth.
Qed.

Lemma auth_words_answer_401_witness :
  r_status
    (errorHandler false
       {| message := Some "author is required"; status := Some 400;
          isJoi := true; details := []; code := None; name := None;
          stack := None |}) = 401.
Proof.
  apply (auth_words_answer_401 false
           {| message := Some "author is required"; status := Some 400;
              isJoi := true; details := []; code := None; name := None;
              stack := None |}).
  vm_compute; reflexivity.
Defined.

(** X20. In production no stack is sent, and an answer with the status
    500 carries the text "Internal Server Error" whatever the message of
    the error; out of production the stack of the error is sent whenever it
    is not empty. *)
Theorem production_hides_the_error (e : err) :
  r_stack (errorHandler true e) = None
  /\ (r_status (errorHandler true e) = 500 ->
      r_error (errorHandler true e) = "Internal Server Error")
  /\ r_stack (errorHandler false e)
     = match stack e with
       | Some t => if String.eqb t "" then None else Some t
       | None => None
       end.
Proof.
  unfold errorHandler. cbn [r_status r_error r_stack].
  set (d := rate_step e _). unfold production_step. split; [|split].
  - destruct (true && (d_status d =? 500)); cbn [d_stack]; [done|].
    destruct (stack e); [|done]. by rewrite andb_false_r.
  - destruct (Z.eqb_spec (d_status d) 500) as [Heq|Hne]; cbn; [done|].
    intros H. by destruct Hne.
  - cbn [andb d_stack]. destruct (stack e) as [t|]; [|done].
    by destruct (String.eqb t "").
Qed.

(** X21. Details are part of the answer exactly for a validation error,
    one pair of field and message for each violation, in order; no later
    rule removes or changes them. *)
Theorem details_are_those_of_validation (production : bool) (e : err) :
  r_details (errorHandler production e)
  = if isJoi e
    then Some (map (fun x => (Validation.join_path (Schema.path x),
                              Schema.message x)) (details e))
    else None.
Proof.
  unfold errorHandler. cbn [r_details].
  assert (forall d, d_details (production_step production e d) = d_details d)
    as Hprod by (intros d; unfold production_step; by destruct (_ && _)).
  assert (forall d, d_details (auth_step e d) = d_details d) as Hauth
    by (intros d; unfold auth_step; by destruct (_ || _)).
  assert (forall d, d_details (cast_step e d) = d_details d) as Hcast.
  { intros d. unfold cast_step. destruct (name e) as [n|]; [|done].
    by destruct (String.eqb n "CastError"). }
  assert (forall d, d_details (astra_step e d) = d_details d) as Hastra
    by (intros d; unfold astra_step; by destruct (mentions e "AstraDB")).
  rewrite Hprod, rate_step_details, Hauth, Hcast, duplicate_step_details, Hastra.
  unfold joi_step. by destruct (isJoi e).
Qed.

End ErrorHandlerFacts.

(** ** The pages of a listing *)

Module PaginationFacts.
Import Service Routes.

Local Open Scope Z_scope.

Lemma Qceiling_div (total : Z) (p : positive) :
  Qceiling (inject_Z total / inject_Z (Zpos p)) = - ((- total) / Zpos p).
Proof.
  unfold Qceiling, Qfloor, Qdiv, Qmult, Qinv, Qopp, inject_Z. cbn.
  rewrite Z.mul_1_r. reflexivity.
Qed.

(** X22. For a page size of 1 or more and a count that is not negative,
    the number of pages reported is the least that holds every entry: the
    last page starts before the end of the entries, the page after it
    starts at or after the end. *)
Theorem pages_cover_total (total limit : Z) :
  0 <= total ->
  0 < limit ->
  exists n : Z,
    pages total limit = Some n
    /\ 0 <= n
    /\ skip n limit < total <= skip (n + 1) limit.
Proof.
  intros Htotal Hlimit. unfold pages, skip.
  destruct (Z.eqb_spec limit 0) as [->|_]; [lia|].
  destruct limit as [|p|p]; try lia.
  rewrite Qceiling_div. eexists. split; [reflexivity|].
  pose proof (Z.div_mod (- total) (Zpos p) ltac:(lia)) as Hdm.
  pose proof (Z.mod_pos_bound (- total) (Zpos p) ltac:(lia)) as Hmod.
  nia.
Qed.

Lemma pages_cover_total_witness :
  exists n : Z,
    pages 25 10 = Some n /\ 0 <= n /\ skip n 10 < 25 <= skip (n + 1) 10.
Proof. apply (pages_cover_total 25 10); lia. Defined.

(** X23. The listing route never asks the service for page 0 or for a
    page size of 0, so the number of pages it reports is always a number;
    a page or a size that is absent, not a number, or 0 counts as page 1
    and size 10. *)
Theorem listing_route_has_a_page_count
    (find : user_filter -> string * Z -> Z -> Z -> list (gmap string value))
    (countDocuments : user_filter -> Z) (userId : string)
    (page limit : option Z) (content_type sort_by sort_order : option string) :
  let info :=
    pages_info
      (getUserEntries find countDocuments userId
         (user_entries_options page limit content_type sort_by sort_order)) in
  pg_page info <> 0
  /\ pg_limit info <> 0
  /\ is_Some (pg_pages info)
  /\ (page = None \/ page = Some 0 -> pg_page info = 1)
  /\ (limit = None \/ limit = Some 0 -> pg_limit info = 10).
Proof.
  cbn. unfold int_or.
  assert (forall (x : option Z) (d : Z), d <> 0 ->
            match x with
            | Some z => if z =? 0 then d else z
            | None => d
            end <> 0) as Hnz.
  { intros [z|] d Hd; [|done]. by destruct (Z.eqb_spec z 0). }
  split; [by apply Hnz|]. split; [by apply Hnz|]. split; [|split].
  - unfold pages.
    destruct (Z.eqb_spec (match limit with
                          | Some z => if z =? 0 then 10 else z
                          | None => 10
                          end) 0) as [H0|_]; [|by eexists].
    by apply Hnz in H0.
  - by intros [->| ->].
  - by intros [->| ->].
Qed.

End PaginationFacts.
